(** * zapx: a Stackdriver-formatting zap core with Slack notification

    A shallow embedding of the [stackdriver] core of package [zapx]
    (stackdriver.go, the Slack notifier and its encoder, utils.go, zapx.go)
    and the properties of its field classifier, its scope derivation, its
    write path and its notification retry policy. *)

From Stdlib Require Import String Ascii ZArith NArith List Bool Lia.
From Stdlib Require Import Sorting.Sorted Sorting.Permutation.
Import ListNotations.

Local Open Scope string_scope.
Local Open Scope list_scope.
Local Open Scope Z_scope.

(** ** Strings *)

(** The line feed that the Go sources write as a backslash followed by n. *)
Definition LF : string := String (ascii_of_nat 10) EmptyString.

(** [strings.HasPrefix s prefix]. *)
Definition strings_HasPrefix (s prefix : string) : bool := String.prefix prefix s.

(** [strings.TrimPrefix s prefix]: [s] without the leading [prefix], and [s]
    itself when it does not start with [prefix]. *)
Definition strings_TrimPrefix (s prefix : string) : string :=
  if strings_HasPrefix s prefix
  then substring (String.length prefix) (String.length s - String.length prefix) s
  else s.

(** ** zapcore: levels, field types, entries *)

Inductive Level : Set :=
| DebugLevel | InfoLevel | WarnLevel | ErrorLevel
| DPanicLevel | PanicLevel | FatalLevel.

Inductive FieldType : Set :=
| UnknownType | ArrayMarshalerType | ObjectMarshalerType | BinaryType
| BoolType | ByteStringType | Complex128Type | Complex64Type | DurationType
| Float64Type | Float32Type | Int64Type | Int32Type | Int16Type | Int8Type
| StringType | TimeType | TimeFullType | Uint64Type | Uint32Type
| Uint16Type | Uint8Type | UintptrType | ReflectType | NamespaceType
| StringerType | ErrorType | SkipType | InlineMarshalerType.

Definition isStringType (t : FieldType) : bool :=
  match t with StringType => true | _ => false end.

Definition isBoolType (t : FieldType) : bool :=
  match t with BoolType => true | _ => false end.

Definition isErrorType (t : FieldType) : bool :=
  match t with ErrorType => true | _ => false end.

(** [time.Duration], in nanoseconds. *)
Definition Duration := Z.

(** A Go [error] value as far as this package observes it: its message, the
    [RetryAfter] of the [*slack.RateLimitedError] that [errors.As] finds in
    its chain, and the answer of [Retryable()] when the value implements
    [retryableError]. *)
Record error : Set := mkError {
  err_Error : string;
  err_AsRateLimited : option Duration;
  err_Retryable : option bool
}.

Record EntryCaller : Set := mkCaller {
  Defined : bool;
  File : string;
  Line : Z;
  Function : string
}.

Record Entry : Set := mkEntry {
  ent_Level : Level;
  ent_Time : Z;
  LoggerName : string;
  Message : string;
  Caller : EntryCaller
}.

Definition set_Message (ent : Entry) (m : string) : Entry :=
  mkEntry (ent_Level ent) (ent_Time ent) (LoggerName ent) m (Caller ent).

(** ** stackdriver.go: constants and plain structs *)

Definition logKeySlackNotification : string := "zapx.slack".
Definition logKeyContextInfo : string := "zapx.context".
Definition logKeyLabelPrefix : string := "zapx.label#".

Inductive slackBehavior : Set := defaultSlack | enableSlack | disableSlack.

Record contextInfo : Set := mkContextInfo {
  IsSampled : bool;
  TraceID : string;
  SpanID : string;
  GrpcMethod : string;
  RequestID : string
}.

Record serviceContext : Set := mkServiceContext {
  Service : string;
  Version : string
}.

Record sourceLocation : Set := mkSourceLocation {
  file : string;
  line : Z;
  function : string
}.

Record reportLocation : Set := mkReportLocation {
  filePath : string;
  lineNumber : Z;
  functionName : string
}.

Record errorReportingContext : Set := mkErrorReportingContext {
  erc_reportLocation : reportLocation;
  erc_user : string
}.

(** [StackdriverEncoderConfig.EncodeLevel]: the severity text of a level. *)
Definition EncodeLevel (lv : Level) : string :=
  match lv with
  | DebugLevel => "DEBUG"
  | InfoLevel => "INFO"
  | WarnLevel => "WARNING"
  | ErrorLevel => "ERROR"
  | DPanicLevel => "CRITICAL"
  | PanicLevel => "ALERT"
  | FatalLevel => "EMERGENCY"
  end.

(** [zapcore.Field], over the type of the values its [Interface] holds. *)
Record FieldOf (I : Type) : Type := mkField {
  Key : string;
  Type_ : FieldType;
  Integer : Z;
  String_ : string;
  Interface : I
}.

Arguments mkField {I} _ _ _ _ _.
Arguments Key {I} _.
Arguments Type_ {I} _.
Arguments Integer {I} _.
Arguments String_ {I} _.
Arguments Interface {I} _.

Section Zapx.

(** Values of Go types this package does not define (user objects, arrays,
    byte slices, reflected values) that a field may carry. *)
Context {Any : Type}.

(** The dynamic value of [Field.Interface]: [nil], one of the package's own
    types, an [error], a byte slice, or a foreign value. *)
#[warnings="-register-all"]
Inductive iface : Type :=
| INil
| IContextInfo (info : contextInfo)
| IError (err : error)
| IServiceContext (c : serviceContext)
| ISourceLocation (l : sourceLocation)
| IErrorReportingContext (c : errorReportingContext)
| ILabels (l : list (FieldOf iface))
| IBytes (b : string)
| IAny (a : Any).

Definition Field : Type := FieldOf iface.

(** [type labels []zap.Field]. *)
Definition labels : Type := list Field.

(** The zap field constructors the package uses. *)
Definition zap_String (key val : string) : Field :=
  mkField key StringType 0 val INil.

Definition zap_Bool (key : string) (val : bool) : Field :=
  mkField key BoolType (if val then 1 else 0) "" INil.

Definition zap_Object (key : string) (val : iface) : Field :=
  mkField key ObjectMarshalerType 0 "" val.

Definition zap_Reflect (key : string) (val : iface) : Field :=
  mkField key ReflectType 0 "" val.

Definition set_String (f : Field) (v : string) : Field :=
  mkField (Key f) (Type_ f) (Integer f) v (Interface f).

(** zapx.go: the markers an application attaches to a log call. *)
Definition Label (key val : string) : Field :=
  zap_String (logKeyLabelPrefix ++ key)%string val.

Definition Slack (url : list string) : Field :=
  match url with
  | u :: _ => zap_String logKeySlackNotification u
  | [] => zap_Bool logKeySlackNotification true
  end.

(** [zapcore.Core], the inner core the decorator wraps: the answers of its
    methods, [None] standing for a nil error. *)
Record Core : Type := mkCore {
  core_Enabled : Level -> bool;
  core_Write : Entry -> list Field -> option error;
  core_Sync : option error
}.

Record stackdriver : Type := mkStackdriver {
  sd_projectID : string;
  sd_parent : Core;
  sd_svcCtx : serviceContext;
  sd_slackURL : string;
  sd_errorPraser : option (error -> iface * bool);
  sd_enableSlack : bool;
  sd_user : string;
  sd_fields : list Field
}.

(** *** parseFields *)

(** The variables of [parseFields]: the local [labels] and the four named
    results. *)
Record locals : Type := mkLocals {
  l_labels : labels;
  fs : list Field;
  user : string;
  sendSlack : slackBehavior;
  slackURL : string
}.

Definition parse_init : locals := mkLocals [] [] "" defaultSlack "".

Definition append_labels (st : locals) (l : list Field) : locals :=
  mkLocals (l_labels st ++ l) (fs st) (user st) (sendSlack st) (slackURL st).

Definition append_fs (st : locals) (l : list Field) : locals :=
  mkLocals (l_labels st) (fs st ++ l) (user st) (sendSlack st) (slackURL st).

Definition set_user (st : locals) (u : string) : locals :=
  mkLocals (l_labels st) (fs st) u (sendSlack st) (slackURL st).

Definition set_sendSlack (st : locals) (b : slackBehavior) : locals :=
  mkLocals (l_labels st) (fs st) (user st) b (slackURL st).

Definition set_slackURL (st : locals) (u : string) : locals :=
  mkLocals (l_labels st) (fs st) (user st) (sendSlack st) u.

(** The fields the [logKeyContextInfo] case appends for a well-formed value. *)
Definition contextFields (info : contextInfo) : list Field :=
  (if IsSampled info
   then [ zap_Bool "logging.googleapis.com/trace_sampled" true;
          zap_String "logging.googleapis.com/trace" (TraceID info);
          zap_String "logging.googleapis.com/spanId" (SpanID info) ]
   else [])
  ++ (if (GrpcMethod info =? "")%string then []
      else [zap_String "grpc_method" (GrpcMethod info)])
  ++ (if (RequestID info =? "")%string then []
      else [zap_String "request_id" (RequestID info)]).

(** One iteration of the loop of [parseFields] over field [f]; [msg] is the
    variadic argument. *)
Definition parseField (s : stackdriver) (msg : list string)
    (st : locals) (f : Field) : locals :=
  if strings_HasPrefix (Key f) logKeyLabelPrefix then
    let key := strings_TrimPrefix (Key f) logKeyLabelPrefix in
    let val := String_ f in
    append_labels st [zap_String key val]
  else if (Key f =? "user")%string then
    if isStringType (Type_ f) then set_user st (String_ f) else st
  else if (Key f =? "stack_trace")%string then
    match msg with
    | m :: _ =>
        if isStringType (Type_ f)
        then append_fs st [set_String f (m ++ LF ++ String_ f)%string]
        else append_fs st [f]
    | [] => append_fs st [f]
    end
  else if (Key f =? logKeyContextInfo)%string then
    match Interface f with
    | IContextInfo info => append_fs st (contextFields info)
    | _ => st
    end
  else if (Key f =? logKeySlackNotification)%string then
    if isBoolType (Type_ f) then
      if Integer f =? 1
      then set_slackURL (set_sendSlack st enableSlack) (sd_slackURL s)
      else set_sendSlack st disableSlack
    else if isStringType (Type_ f) then
      set_slackURL (set_sendSlack st enableSlack) (String_ f)
    else st
  else
    match sd_errorPraser s, Type_ f, Interface f with
    | Some errorPraser, ErrorType, IError err =>
        let (obj, ok) := errorPraser err in
        if ok then append_fs st [zap_Object (Key f) obj]
        else append_fs st [f]
    | _, _, _ => append_fs st [f]
    end.

Definition labelsKey : string := "logging.googleapis.com/labels".

Definition parseFields (s : stackdriver) (fields : list Field)
    (msg : list string) : locals :=
  let st := fold_left (parseField s msg) fields parse_init in
  match l_labels st with
  | [] => st
  | _ :: _ => append_fs st [zap_Object labelsKey (ILabels (l_labels st))]
  end.

(** *** With *)

Definition set_slackURL_sd (s : stackdriver) (u : string) : stackdriver :=
  mkStackdriver (sd_projectID s) (sd_parent s) (sd_svcCtx s) u
    (sd_errorPraser s) (sd_enableSlack s) (sd_user s) (sd_fields s).

Definition set_enableSlack_sd (s : stackdriver) (b : bool) : stackdriver :=
  mkStackdriver (sd_projectID s) (sd_parent s) (sd_svcCtx s) (sd_slackURL s)
    (sd_errorPraser s) b (sd_user s) (sd_fields s).

(** The struct literal of [With] names every member but [enableSlack] (and
    the wait group), which therefore starts at its zero value [false]. *)
Definition With (s : stackdriver) (fields : list Field) : stackdriver :=
  let r := parseFields s fields [] in
  let user := if (user r =? "")%string then sd_user s else user r in
  let newFileds := sd_fields s ++ fs r in
  let news :=
    mkStackdriver (sd_projectID s) (sd_parent s) (sd_svcCtx s) (sd_slackURL s)
      (sd_errorPraser s) false user newFileds in
  let news :=
    if (slackURL r =? "")%string then news else set_slackURL_sd news (slackURL r) in
  match sendSlack r with
  | disableSlack => set_enableSlack_sd news false
  | enableSlack => set_enableSlack_sd news true
  | defaultSlack => news
  end.

Definition Enabled (s : stackdriver) (l : Level) : bool :=
  core_Enabled (sd_parent s) l.

(** *** Write *)

(** utils.go. [caller.TrimmedPath()] belongs to zap. *)
Variable Caller_TrimmedPath : EntryCaller -> string.

Definition reportLocationFromEntry (ent : Entry) : reportLocation :=
  let caller := Caller ent in
  if negb (Defined caller) then mkReportLocation "" 0 ""
  else mkReportLocation (Caller_TrimmedPath caller) (Line caller) (Function caller).

Definition sourceLocationFromEntry (ent : Entry) : sourceLocation :=
  let caller := Caller ent in
  if negb (Defined caller) then mkSourceLocation "" 0 ""
  else mkSourceLocation (Caller_TrimmedPath caller) (Line caller) (Function caller).

(** What a call of [Write] does besides computing: it may add one to the
    wait group and start the notification goroutine with a destination, the
    entry and the fields, and it calls the inner core's [Write]. *)
Inductive event : Type :=
| EvWGAdd
| EvGo (slackurl : string) (ent : Entry) (fields : list Field)
| EvParentWrite (ent : Entry) (fields : list Field).

Definition isEnable (b : slackBehavior) : bool :=
  match b with enableSlack => true | _ => false end.

Definition isDefault (b : slackBehavior) : bool :=
  match b with defaultSlack => true | _ => false end.

(** [Write]: the events in program order, and the returned error. *)
Definition Write (s : stackdriver) (ent : Entry) (fields : list Field)
    : list event * option error :=
  let ent :=
    if negb (LoggerName ent =? "")%string && negb (LoggerName ent =? "unknown")%string
    then set_Message ent (LoggerName ent ++ ": " ++ Message ent)%string
    else ent in
  let rloc := reportLocationFromEntry ent in
  let sloc := sourceLocationFromEntry ent in
  let r := parseFields s fields [Message ent] in
  let fs := fs r ++ sd_fields s in
  let user := if (user r =? "")%string then sd_user s else user r in
  let fs := fs ++ [ zap_Object "logging.googleapis.com/sourceLocation" (ISourceLocation sloc);
                    zap_Object "serviceContext" (IServiceContext (sd_svcCtx s));
                    zap_Object "context"
                      (IErrorReportingContext (mkErrorReportingContext rloc user)) ] in
  let spawned :=
    if isEnable (sendSlack r) || (isDefault (sendSlack r) && sd_enableSlack s)
    then [EvWGAdd; EvGo (slackURL r) ent fs]
    else [] in
  (spawned ++ [EvParentWrite ent fs], core_Write (sd_parent s) ent fs).

(** ** The Slack notifier *)

Definition levelColorMap (l : Level) : option string :=
  match l with
  | DebugLevel => Some "#2196F3"
  | InfoLevel => Some "#9E9E9E"
  | WarnLevel => Some "#FF9800"
  | ErrorLevel => Some "#D50000"
  | FatalLevel => Some "#D50000"
  | PanicLevel => Some "#D50000"
  | DPanicLevel => None
  end.

(** *** The retrier *)

(** [bo] stands for the method [r.bo.Backoff] of the backoff package. *)
Record slackRetrier : Type := mkRetrier {
  bo : Z -> Duration;
  max : Z
}.

(** [Retry n err]: the delay before the next attempt and whether there is one. *)
Definition Retry (r : slackRetrier) (n : Z) (err : error) : Duration * bool :=
  if max r <=? n then (0, false)
  else
    match err_AsRateLimited err with
    | Some RetryAfter => (RetryAfter, true)
    | None =>
        match err_Retryable err with
        | Some false => (0, false)
        | _ => (bo r n, true)
        end
    end.

(** The backoff schedule the default retrier ends up using. *)
Variable Backoff_Backoff : Z -> Duration.

Definition defaultRetrier : slackRetrier := mkRetrier Backoff_Backoff 10.

(** *** slackEncoder *)

Record TextBlockObject : Set := mkTextBlockObject {
  tb_Type : string;
  Text : string
}.

Record slackEncoder : Set := mkSlackEncoder {
  Fields : list TextBlockObject;
  ErrField : option TextBlockObject
}.

Definition mrkdwn (text : string) : TextBlockObject :=
  mkTextBlockObject "mrkdwn" text.

(** [sort.Slice] with the comparison of [sort]: the elements in ascending
    order of [Text]. Elements the comparison does not separate have the same
    [Text], so for the encoder's blocks every sorting algorithm yields this
    list ([sort_Slice_unique] below). *)
Fixpoint insert (x : TextBlockObject) (l : list TextBlockObject)
    : list TextBlockObject :=
  match l with
  | [] => [x]
  | y :: l' =>
      if (Text x <? Text y)%string then x :: y :: l' else y :: insert x l'
  end.

Definition sort_Slice (l : list TextBlockObject) : list TextBlockObject :=
  fold_right insert [] l.

Definition sort (enc : slackEncoder) : slackEncoder :=
  mkSlackEncoder (sort_Slice (Fields enc)) (ErrField enc).

Definition addField (enc : slackEncoder) (key : string)
    (field : TextBlockObject) : slackEncoder :=
  if (key =? "error")%string
  then mkSlackEncoder (Fields enc) (Some field)
  else mkSlackEncoder (Fields enc ++ [field]) (ErrField enc).

(** The two format strings of the encoder: a starred key, a line feed and
    the value, the value fenced by backquotes in the second. *)
Definition Sprintf_kv (key value : string) : string :=
  ("*" ++ key ++ "*" ++ LF ++ value)%string.

Definition Sprintf_kcode (key buf : string) : string :=
  ("*" ++ key ++ "*" ++ LF ++ "```" ++ buf ++ "```")%string.

(** Foreign formatting: yaml.v2, encoding/base64, fmt verbs and time. Floats
    are given by their bit pattern, as zap stores them in [Integer]. *)
Variable yaml_Marshal : iface -> string + error.
Variable base64_EncodeToString : string -> string.
Variable Sprintf_x : Z -> string.
Variable Sprintf_d : Z -> string.
Variable Sprintf_f : Z -> string.
Variable Sprintf_f_complex : Any -> string.
Variable Duration_String : Duration -> string.
Variable Time_Format_RFC3339 : Z -> string.
Variable Time_Local_Format_RFC3339 : Z -> string.
Variable Time_Unix : Z -> Z.
Variable Stringer_String : iface -> string.
Variable Caller_String : EntryCaller -> string.

Definition AddArray (enc : slackEncoder) (key : string) (value : iface)
    : slackEncoder * option error :=
  match yaml_Marshal value with
  | inr err => (enc, Some err)
  | inl buf => (addField enc key (mrkdwn (Sprintf_kcode key buf)), None)
  end.

Definition AddObject (enc : slackEncoder) (key : string) (value : iface)
    : slackEncoder * option error :=
  if (key =? "serviceContext")%string then (enc, None)
  else
    match yaml_Marshal value with
    | inr err => (enc, Some err)
    | inl buf =>
        if (buf =? "{}" ++ LF)%string || (buf =? "{}")%string || (buf =? "")%string
        then (enc, None)
        else (addField enc key (mrkdwn (Sprintf_kcode key buf)), None)
    end.

Definition AddReflected (enc : slackEncoder) (key : string) (value : iface)
    : slackEncoder * option error :=
  match yaml_Marshal value with
  | inr err => (enc, Some err)
  | inl buf => (addField enc key (mrkdwn (Sprintf_kcode key buf)), None)
  end.

Definition AddBinary (enc : slackEncoder) (key value : string) : slackEncoder :=
  let buf := base64_EncodeToString value in
  addField enc key (mrkdwn (Sprintf_kv key buf)).

Definition AddByteString (enc : slackEncoder) (key value : string) : slackEncoder :=
  addField enc key (mrkdwn (Sprintf_kv key value)).

Definition AddBool (enc : slackEncoder) (key : string) (value : bool) : slackEncoder :=
  addField enc key (mrkdwn (Sprintf_kv key (if value then "true" else "false"))).

Definition AddDuration (enc : slackEncoder) (key : string) (value : Duration)
    : slackEncoder :=
  addField enc key (mrkdwn (Sprintf_kv key (Duration_String value))).

Definition AddString (enc : slackEncoder) (key value : string) : slackEncoder :=
  addField enc key (mrkdwn (Sprintf_kv key value)).

Definition AddTime (enc : slackEncoder) (key : string) (value : Z) : slackEncoder :=
  addField enc key
    (mrkdwn (Sprintf_kv key
       ("time=" ++ Time_Local_Format_RFC3339 value
        ++ " (" ++ Sprintf_d (Time_Unix value) ++ ")")%string)).

(** The eleven integer methods differ in the name they print only. *)
Inductive intKind : Set :=
| KInt | KInt64 | KInt32 | KInt16 | KInt8
| KUint | KUint64 | KUint32 | KUint16 | KUint8 | KUintptr.

Definition intKind_name (k : intKind) : string :=
  match k with
  | KInt => "int" | KInt64 => "int64" | KInt32 => "int32"
  | KInt16 => "int16" | KInt8 => "int8"
  | KUint => "uint" | KUint64 => "uint64" | KUint32 => "uint32"
  | KUint16 => "uint16" | KUint8 => "uint8" | KUintptr => "uintptr"
  end.

Definition AddInteger (k : intKind) (enc : slackEncoder) (key : string)
    (value : Z) : slackEncoder :=
  addField enc key
    (mrkdwn (Sprintf_kv key
       (intKind_name k ++ "=0x" ++ Sprintf_x value
        ++ " (" ++ Sprintf_d value ++ ")")%string)).

Definition AddFloat64 (enc : slackEncoder) (key : string) (value : Z) : slackEncoder :=
  addField enc key (mrkdwn (Sprintf_kv key ("float64=" ++ Sprintf_f value)%string)).

Definition AddFloat32 (enc : slackEncoder) (key : string) (value : Z) : slackEncoder :=
  addField enc key (mrkdwn (Sprintf_kv key ("float32=" ++ Sprintf_f value)%string)).

Definition AddComplex128 (enc : slackEncoder) (key : string) (value : Any)
    : slackEncoder :=
  addField enc key
    (mrkdwn (Sprintf_kv key ("complex128=" ++ Sprintf_f_complex value)%string)).

Definition AddComplex64 (enc : slackEncoder) (key : string) (value : Any)
    : slackEncoder :=
  addField enc key
    (mrkdwn (Sprintf_kv key ("complex64=" ++ Sprintf_f_complex value)%string)).

Definition OpenNamespace (enc : slackEncoder) (key : string) : slackEncoder := enc.

(** The methods of [zapcore.ObjectEncoder] as data: one call of a method of
    the encoder with its arguments. *)
Inductive encCall : Type :=
| CAddArray (key : string) (value : iface)
| CAddObject (key : string) (value : iface)
| CAddReflected (key : string) (value : iface)
| CAddBinary (key value : string)
| CAddByteString (key value : string)
| CAddBool (key : string) (value : bool)
| CAddComplex128 (key : string) (value : Any)
| CAddComplex64 (key : string) (value : Any)
| CAddDuration (key : string) (value : Duration)
| CAddFloat64 (key : string) (value : Z)
| CAddFloat32 (key : string) (value : Z)
| CAddInteger (k : intKind) (key : string) (value : Z)
| CAddString (key value : string)
| CAddTime (key : string) (value : Z)
| COpenNamespace (key : string).

Definition call_key (c : encCall) : string :=
  match c with
  | CAddArray key _ | CAddObject key _ | CAddReflected key _
  | CAddBinary key _ | CAddByteString key _ | CAddBool key _
  | CAddComplex128 key _ | CAddComplex64 key _ | CAddDuration key _
  | CAddFloat64 key _ | CAddFloat32 key _ | CAddInteger _ key _
  | CAddString key _ | CAddTime key _ | COpenNamespace key => key
  end.

Definition invoke (c : encCall) (enc : slackEncoder) : slackEncoder * option error :=
  match c with
  | CAddArray key value => AddArray enc key value
  | CAddObject key value => AddObject enc key value
  | CAddReflected key value => AddReflected enc key value
  | CAddBinary key value => (AddBinary enc key value, None)
  | CAddByteString key value => (AddByteString enc key value, None)
  | CAddBool key value => (AddBool enc key value, None)
  | CAddComplex128 key value => (AddComplex128 enc key value, None)
  | CAddComplex64 key value => (AddComplex64 enc key value, None)
  | CAddDuration key value => (AddDuration enc key value, None)
  | CAddFloat64 key value => (AddFloat64 enc key value, None)
  | CAddFloat32 key value => (AddFloat32 enc key value, None)
  | CAddInteger k key value => (AddInteger k enc key value, None)
  | CAddString key value => (AddString enc key value, None)
  | CAddTime key value => (AddTime enc key value, None)
  | COpenNamespace key => (OpenNamespace enc key, None)
  end.

(** A sequence of calls on one encoder, returned errors dropped. *)
Definition run (calls : list encCall) (enc : slackEncoder) : slackEncoder :=
  fold_left (fun e c => fst (invoke c e)) calls enc.

(** What zap's [Field.AddTo] needs to know of foreign values: the errors of
    an error group (the array [encodeError] adds), the print of an error that
    is a [fmt.Formatter] under the verb +v, and for an inlined marshaler the
    calls its [MarshalLogObject] makes on the encoder with the error it
    returns. *)
Variable error_Causes : error -> option iface.
Variable error_Format : error -> option string.
Variable Inline_MarshalLogObject : iface -> list encCall * option error.

(** zap's [Field.AddTo]: the one method it selects by the field's type, for
    the types that select one. A skipped field selects none, and neither does
    a field whose [Interface] does not hold what its type announces (zap's
    constructors build no such field). A time is given by its [Integer]. *)
Definition Field_method (f : Field) : option encCall :=
  match Type_ f, Interface f with
  | ArrayMarshalerType, v => Some (CAddArray (Key f) v)
  | ObjectMarshalerType, v => Some (CAddObject (Key f) v)
  | ReflectType, v => Some (CAddReflected (Key f) v)
  | BinaryType, IBytes b => Some (CAddBinary (Key f) b)
  | ByteStringType, IBytes b => Some (CAddByteString (Key f) b)
  | BoolType, _ => Some (CAddBool (Key f) (Integer f =? 1))
  | Complex128Type, IAny a => Some (CAddComplex128 (Key f) a)
  | Complex64Type, IAny a => Some (CAddComplex64 (Key f) a)
  | DurationType, _ => Some (CAddDuration (Key f) (Integer f))
  | Float64Type, _ => Some (CAddFloat64 (Key f) (Integer f))
  | Float32Type, _ => Some (CAddFloat32 (Key f) (Integer f))
  | Int64Type, _ => Some (CAddInteger KInt64 (Key f) (Integer f))
  | Int32Type, _ => Some (CAddInteger KInt32 (Key f) (Integer f))
  | Int16Type, _ => Some (CAddInteger KInt16 (Key f) (Integer f))
  | Int8Type, _ => Some (CAddInteger KInt8 (Key f) (Integer f))
  | Uint64Type, _ => Some (CAddInteger KUint64 (Key f) (Integer f))
  | Uint32Type, _ => Some (CAddInteger KUint32 (Key f) (Integer f))
  | Uint16Type, _ => Some (CAddInteger KUint16 (Key f) (Integer f))
  | Uint8Type, _ => Some (CAddInteger KUint8 (Key f) (Integer f))
  | UintptrType, _ => Some (CAddInteger KUintptr (Key f) (Integer f))
  | StringType, _ => Some (CAddString (Key f) (String_ f))
  | TimeType, _ => Some (CAddTime (Key f) (Integer f))
  | TimeFullType, _ => Some (CAddTime (Key f) (Integer f))
  | NamespaceType, _ => Some (COpenNamespace (Key f))
  | StringerType, v => Some (CAddString (Key f) (Stringer_String v))
  | _, _ => None
  end.

(** zap's [encodeError]: the message under the key; then for an error group
    the array of its errors under the key suffixed with Causes, whose error
    is returned, and otherwise for a formatter whose verbose print differs
    from the message that print under the key suffixed with Verbose. *)
Definition encodeError (key : string) (err : error) (enc : slackEncoder)
    : slackEncoder * option error :=
  let basic := err_Error err in
  let enc := AddString enc key basic in
  match error_Causes err with
  | Some causes => AddArray enc (key ++ "Causes")%string causes
  | None =>
      match error_Format err with
      | Some verbose =>
          if negb (verbose =? basic)%string
          then (AddString enc (key ++ "Verbose")%string verbose, None)
          else (enc, None)
      | None => (enc, None)
      end
  end.

(** The switch of [field.AddTo(enc)]: the encoder after it and the error it
    leaves. *)
Definition Field_encode (f : Field) (enc : slackEncoder)
    : slackEncoder * option error :=
  match Type_ f, Interface f with
  | ErrorType, IError err => encodeError (Key f) err enc
  | InlineMarshalerType, v =>
      let (calls, err) := Inline_MarshalLogObject v in (run calls enc, err)
  | _, _ =>
      match Field_method f with
      | Some c => invoke c enc
      | None => (enc, None)
      end
  end.

(** [field.AddTo(enc)]: the switch, and for an error it leaves a string
    under the key suffixed with Error. *)
Definition Field_AddTo (f : Field) (enc : slackEncoder) : slackEncoder :=
  let (enc', err) := Field_encode f enc in
  match err with
  | None => enc'
  | Some e => AddString enc' (Key f ++ "Error")%string (err_Error e)
  end.

(** *** sendSlackNotification *)

Inductive Block : Set :=
| SectionBlock (text : option TextBlockObject) (fields : list TextBlockObject)
| DividerBlock.

Record Attachment : Set := mkAttachment {
  Color : string;
  BlockSet : list Block
}.

Record WebhookMessage : Set := mkWebhookMessage {
  Attachments : list Attachment
}.

(** What the notification goroutine does: it may hand the payload for a
    destination to [backoff.Invoke] with [defaultRetrier.Retry], and it
    releases its slot of the wait group. *)
Inductive effect : Set :=
| EfInvoke (slackurl : string) (payload : WebhookMessage)
| EfWGDone.

Definition sendSlackNotification (s : stackdriver) (slackurl : string)
    (ent : Entry) (fields : list Field) : list effect :=
  (if (slackurl =? "")%string then []
   else
     match levelColorMap (ent_Level ent) with
     | None => []
     | Some color =>
         let enc := fold_left (fun enc field => Field_AddTo field enc) fields
                      (mkSlackEncoder [] None) in
         let enc := sort enc in
         let head_Fields :=
           [ mrkdwn (Sprintf_kv "Service" (Service (sd_svcCtx s)));
             mrkdwn (Sprintf_kv "Version" (Version (sd_svcCtx s)));
             mrkdwn (Sprintf_kv "Time" (Time_Format_RFC3339 (ent_Time ent))) ]
           ++ match ErrField enc with Some e => [e] | None => [] end in
         let head :=
           SectionBlock
             (Some (mrkdwn (Sprintf_kv (Message ent) (Caller_String (Caller ent)))))
             head_Fields in
         let blocks :=
           match Fields enc with
           | _ :: _ => [head; DividerBlock; SectionBlock None (Fields enc)]
           | [] => [head]
           end in
         [EfInvoke slackurl (mkWebhookMessage [mkAttachment color blocks])]
     end)
  ++ [EfWGDone].

(** ** Notions used in the statements *)

(** A field with the label prefix. *)
Definition isLabel (f : Field) : bool :=
  strings_HasPrefix (Key f) logKeyLabelPrefix.

(** What one field adds to [fs] and to [labels]: a run of the loop body from
    the initial variables. *)
Definition emitted (s : stackdriver) (msg : list string) (f : Field) : list Field :=
  fs (parseField s msg parse_init f).

Definition labelled (s : stackdriver) (msg : list string) (f : Field) : list Field :=
  l_labels (parseField s msg parse_init f).

(** The forward fields of [parseFields]: what the fields emit in call order,
    then the labels object when a label was collected. *)
Definition labelsTail (ls : list Field) : list Field :=
  match ls with
  | [] => []
  | _ :: _ => [zap_Object labelsKey (ILabels ls)]
  end.

(** The three keys of the trace fields. *)
Definition isTraceKey (k : string) : bool :=
  (k =? "logging.googleapis.com/trace_sampled")%string
  || (k =? "logging.googleapis.com/trace")%string
  || (k =? "logging.googleapis.com/spanId")%string.

(** The entry of the labels object a label-prefixed field becomes. *)
Definition toLabel (f : Field) : Field :=
  zap_String (strings_TrimPrefix (Key f) logKeyLabelPrefix) (String_ f).

(** How many fields of a list have a given key. *)
Definition count_key (k : string) (l : list Field) : nat :=
  length (filter (fun g => (Key g =? k)%string) l).

(** The keys of the fields a [contextInfo] expands to. *)
Definition isContextKey (k : string) : bool :=
  isTraceKey k || (k =? "grpc_method")%string || (k =? "request_id")%string.

(** option.go and [Zap]: the options and the root decorator [Zap] wraps
    around the core it builds. *)
Record option_ : Type := mkOption {
  opt_slackURL : string;
  opt_projectID : string;
  opt_service : string;
  opt_version : string;
  opt_errorParser : option (error -> iface * bool)
}.

Definition default_option : option_ := mkOption "" "" "unknown" "unknown" None.

Definition WithSlackURL (url : string) (o : option_) : option_ :=
  mkOption url (opt_projectID o) (opt_service o) (opt_version o) (opt_errorParser o).

Definition WrapCore (opt : option_) (core : Core) : stackdriver :=
  mkStackdriver (opt_projectID opt) core
    (mkServiceContext (opt_service opt) (opt_version opt))
    (opt_slackURL opt) (opt_errorParser opt) false "" [].

(** A field the classifier hands on as it is: no label, none of the reserved
    keys, not of error type. *)
Definition plain (f : Field) : bool :=
  negb (isLabel f)
  && negb (Key f =? "user")%string
  && negb (Key f =? "stack_trace")%string
  && negb (Key f =? logKeyContextInfo)%string
  && negb (Key f =? logKeySlackNotification)%string
  && negb (isErrorType (Type_ f)).

(** The calls of the inner core's [Write] among the events of a call. *)
Definition forwarded (evs : list event) : list (Entry * list Field) :=
  flat_map (fun e => match e with
                     | EvParentWrite ent fields => [(ent, fields)]
                     | _ => []
                     end) evs.

(** The goroutines started among the events of a call. *)
Definition dispatched (evs : list event) : list (string * Entry * list Field) :=
  flat_map (fun e => match e with
                     | EvGo url ent fields => [(url, ent, fields)]
                     | _ => []
                     end) evs.

(** [out] holds the fields of [x], then those of [y], then those of [z], in
    this order. *)
Definition in_order (x y z out : list Field) : Prop :=
  exists l1 l2 l3 l4, out = l1 ++ x ++ l2 ++ y ++ l3 ++ z ++ l4.

(** The message [Write] gives the entry. *)
Definition prefixed_Message (ent : Entry) : string :=
  if negb (LoggerName ent =? "")%string && negb (LoggerName ent =? "unknown")%string
  then (LoggerName ent ++ ": " ++ Message ent)%string
  else Message ent.

(** The three objects [Write] appends after the call's and the scope's
    fields, for the entry as written and the resolved user. *)
Definition metadata (s : stackdriver) (ent : Entry) (user : string) : list Field :=
  [ zap_Object "logging.googleapis.com/sourceLocation"
      (ISourceLocation (sourceLocationFromEntry ent));
    zap_Object "serviceContext" (IServiceContext (sd_svcCtx s));
    zap_Object "context"
      (IErrorReportingContext
         (mkErrorReportingContext (reportLocationFromEntry ent) user)) ].

(** The entry [Write] hands on: the given one, its message prefixed. *)
Definition Write_entry (ent : Entry) : Entry :=
  if negb (LoggerName ent =? "")%string && negb (LoggerName ent =? "unknown")%string
  then set_Message ent (LoggerName ent ++ ": " ++ Message ent)%string
  else ent.

(** The user of the error-reporting context: the call's, else the scope's. *)
Definition Write_user (s : stackdriver) (r : locals) : string :=
  if (user r =? "")%string then sd_user s else user r.

(** The final field set of [Write]. *)
Definition Write_fields (s : stackdriver) (ent : Entry) (fields : list Field)
    : list Field :=
  let r := parseFields s fields [Message (Write_entry ent)] in
  fs r ++ sd_fields s ++ metadata s (Write_entry ent) (Write_user s r).

(** The order [sort] establishes, on blocks. *)
Definition Text_le (a b : TextBlockObject) : Prop :=
  (Text a <=? Text b)%string = true.

Definition emptyEncoder : slackEncoder := mkSlackEncoder [] None.

(** The encoder builds blocks of this one type only. *)
Definition isMrkdwn (b : TextBlockObject) : Prop := tb_Type b = "mrkdwn".

Definition isErrorKey (c : encCall) : bool := (call_key c =? "error")%string.

(** The calls [field.AddTo(enc)] makes on the encoder, in order: those of the
    switch, then the string for the error the switch leaves. What a method
    of the encoder returns does not depend on the encoder. *)
Definition encodeError_calls (key : string) (err : error) : list encCall :=
  CAddString key (err_Error err)
  :: match error_Causes err with
     | Some causes => [CAddArray (key ++ "Causes")%string causes]
     | None =>
         match error_Format err with
         | Some verbose =>
             if negb (verbose =? err_Error err)%string
             then [CAddString (key ++ "Verbose")%string verbose] else []
         | None => []
         end
     end.

Definition Field_calls (f : Field) : list encCall * option error :=
  match Type_ f, Interface f with
  | ErrorType, IError err =>
      (encodeError_calls (Key f) err,
       match error_Causes err with
       | Some causes => snd (invoke (CAddArray (Key f ++ "Causes")%string causes)
                               emptyEncoder)
       | None => None
       end)
  | InlineMarshalerType, v => Inline_MarshalLogObject v
  | _, _ =>
      match Field_method f with
      | Some c => ([c], snd (invoke c emptyEncoder))
      | None => ([], None)
      end
  end.

Definition AddTo_calls (f : Field) : list encCall :=
  fst (Field_calls f)
  ++ match snd (Field_calls f) with
     | Some e => [CAddString (Key f ++ "Error")%string (err_Error e)]
     | None => []
     end.

(** ** Sample values *)

Definition nopCore : Core := mkCore (fun _ => true) (fun _ _ => None) None.

(** The root decorator of [Zap] with a Slack URL set. *)
Definition sampleRoot : stackdriver :=
  WrapCore (WithSlackURL "https://hook" default_option) nopCore.

Definition sampleEntry : Entry :=
  mkEntry ErrorLevel 0 "svc" "boom" (mkCaller true "main.go" 10 "main.main").


(** Stand-ins for the foreign formatting functions. *)
Definition sample_yaml (v : iface) : string + error :=
  match v with
  | INil => inl ""
  | ILabels _ => inl ("{}" ++ LF)%string
  | _ => inl "a: 1"
  end.

Definition sample_fmt (z : Z) : string := "0".

(** ** The rest of the package *)

(** *** option.go and Zap *)

Definition WithProjectID (id : string) (o : option_) : option_ :=
  mkOption (opt_slackURL o) id (opt_service o) (opt_version o) (opt_errorParser o).

Definition WithService (name : string) (o : option_) : option_ :=
  mkOption (opt_slackURL o) (opt_projectID o) name (opt_version o) (opt_errorParser o).

Definition WithVersion (ver : string) (o : option_) : option_ :=
  mkOption (opt_slackURL o) (opt_projectID o) (opt_service o) ver (opt_errorParser o).

Definition WithErrorParser (parser : error -> iface * bool) (o : option_) : option_ :=
  mkOption (opt_slackURL o) (opt_projectID o) (opt_service o) (opt_version o)
    (Some parser).

(** [Zap]: the options applied in order to the defaults, then the decorator
    wrapped around the core [Zap] builds (a JSON core on stdout). *)
Definition Zap (core : Core) (opts : list (option_ -> option_)) : stackdriver :=
  WrapCore (fold_left (fun opt o => o opt) opts default_option) core.

(** *** zapx.go: Context *)

(** [trace.SpanContext] with the identifiers as their [String()] prints them. *)
Record SpanContext : Set := mkSpanContext {
  sc_TraceID : string;
  sc_SpanID : string;
  sc_IsSampled : bool
}.

(** The zero span context: identifiers of sixteen and eight zero bytes in
    hexadecimal, not sampled. *)
Definition zeroSpanContext : SpanContext :=
  mkSpanContext "00000000000000000000000000000000" "0000000000000000" false.

(** [metadata.MD]: the values under a key, if the key is present. *)
Definition MD : Type := string -> option (list string).

(** A [context.Context] as far as the package looks into it: the span of
    [trace.FromContext] ([None] for nil), the method of [grpc.Method] and the
    incoming metadata of [metadata.FromIncomingContext]. *)
Record context : Type := mkContext {
  ctx_Span : option SpanContext;
  ctx_Method : string;
  ctx_MD : option MD
}.

(** [span.SpanContext()], which answers the zero value for a nil span. *)
Definition Span_SpanContext (span : option SpanContext) : SpanContext :=
  match span with
  | Some sctx => sctx
  | None => zeroSpanContext
  end.

(** [md.Get(k)] for a key in lower case. *)
Definition MD_Get (md : MD) (k : string) : list string :=
  match md k with
  | Some vals => vals
  | None => []
  end.

Definition RequestIDMetadataKey : string := "x-request-id".

(** utils.go. *)
Definition extractRequestID (ctx : context) : string :=
  match ctx_MD ctx with
  | Some md =>
      match md RequestIDMetadataKey with
      | Some (reqID :: _) => reqID
      | _ => ""
      end
  | None => ""
  end.

(** [strings.Index s substr]: the first position of [substr] in [s], and -1
    when there is none. *)
Definition strings_Index (s substr : string) : Z :=
  match String.index 0 substr s with
  | Some n => Z.of_nat n
  | None => -1
  end.

(** The slices [s[:i]] and [s[i:]] for [0 <= i <= len(s)]. *)
Definition slice_to (s : string) (i : Z) : string :=
  substring 0 (Z.to_nat i) s.

Definition slice_from (s : string) (i : Z) : string :=
  substring (Z.to_nat i) (String.length s - Z.to_nat i) s.

(** The else branch of [Context]: the members of [info] read off the
    x-cloud-trace-context header. *)
Definition cloudTraceInfo (info : contextInfo) (ctx : context) : contextInfo :=
  match ctx_MD ctx with
  | Some md =>
      match MD_Get md "x-cloud-trace-context" with
      | h :: _ =>
          let slash := strings_Index h "/" in
          if slash =? -1 then info
          else
            let tid := slice_to h slash in
            let h := slice_from h (slash + 1) in
            let semicolon := strings_Index h ";" in
            let spanstr := if semicolon =? -1 then h else slice_to h semicolon in
            let h := if semicolon =? -1 then h else slice_from h (semicolon + 1) in
            mkContextInfo
              (if strings_HasPrefix h "o=1" then true else IsSampled info)
              tid spanstr (GrpcMethod info) (RequestID info)
      | [] => info
      end
  | None => info
  end.

Definition Context_info (ctx : context) : contextInfo :=
  let method := ctx_Method ctx in
  let info := mkContextInfo false "" "" method (extractRequestID ctx) in
  let span := ctx_Span ctx in
  if (match span with Some _ => true | None => false end)
     || negb (sc_IsSampled (Span_SpanContext span))
  then
    let sctx := Span_SpanContext span in
    mkContextInfo (sc_IsSampled sctx) (sc_TraceID sctx) (sc_SpanID sctx)
      (GrpcMethod info) (RequestID info)
  else cloudTraceInfo info ctx.

Definition Context (ctx : context) : Field :=
  zap_Reflect logKeyContextInfo (IContextInfo (Context_info ctx)).

(** *** The marshalers of zapx.go, as the calls they make on the encoder *)

Definition serviceContext_MarshalLogObject (s : serviceContext) : list encCall :=
  [CAddString "service" (Service s); CAddString "version" (Version s)].

Definition sourceLocation_MarshalLogObject (r : sourceLocation) : list encCall :=
  [CAddString "file" (file r); CAddInteger KInt "line" (line r);
   CAddString "function" (function r)].

Definition reportLocation_MarshalLogObject (r : reportLocation) : list encCall :=
  [CAddString "filePath" (filePath r); CAddInteger KInt "lineNumber" (lineNumber r);
   CAddString "functionName" (functionName r)].

(** *** http.go: HTTPRequestEntry *)

(** [*http.Request] as far as the entry reads it; the three strings after
    [req_Host] are the answers of [URL.RequestURI()], [UserAgent()] and
    [Referer()], [req_XForwardedFor] that of [Header.Get]. *)
Record http_Request : Set := mkRequest {
  req_Method : string;
  req_RequestURI : string;
  req_ProtoMajor : Z;
  req_Host : string;
  req_URL_RequestURI : string;
  req_UserAgent : string;
  req_Referer : string;
  req_XForwardedFor : string;
  req_RemoteAddr : string
}.

Record HTTPRequestEntry : Set := mkHTTPRequestEntry {
  Request : option http_Request;
  RequestMethod : string;
  RequestURL : string;
  RequestSize : Z;
  Status : Z;
  ResponseSize : Z;
  UserAgent : string;
  RemoteIP : string;
  Referer : string;
  Latency : Duration
}.

(** [net.SplitHostPort]: the host, or [None] for an error. *)
Variable net_SplitHostPort : string -> option string.
(** [strconv.FormatInt v 10]. *)
Variable strconv_FormatInt : Z -> string.
(** The seconds of a duration printed with the verb f and the letter s. *)
Variable Sprintf_fs : Duration -> string.

Definition HTTP_method (e : HTTPRequestEntry) : string :=
  if negb (RequestMethod e =? "")%string then RequestMethod e
  else match Request e with
       | None => ""
       | Some r => req_Method r
       end.

Definition HTTP_url (e : HTTPRequestEntry) : string :=
  if negb (RequestURL e =? "")%string then RequestURL e
  else match Request e with
       | None => ""
       | Some r =>
           let uri := req_RequestURI r in
           let uri :=
             if (req_ProtoMajor r =? 2) && (req_Method r =? "CONNECT")%string
             then req_Host r else uri in
           if (uri =? "")%string then req_URL_RequestURI r else uri
       end.

Definition HTTP_userAgent (e : HTTPRequestEntry) : string :=
  if negb (UserAgent e =? "")%string then UserAgent e
  else match Request e with
       | None => ""
       | Some r => req_UserAgent r
       end.

Definition HTTP_referer (e : HTTPRequestEntry) : string :=
  if negb (Referer e =? "")%string then Referer e
  else match Request e with
       | None => ""
       | Some r => req_Referer r
       end.

Definition HTTP_remoteIP (e : HTTPRequestEntry) : string :=
  if negb (RemoteIP e =? "")%string then RemoteIP e
  else match Request e with
       | None => ""
       | Some r =>
           let fwd := req_XForwardedFor r in
           if negb (fwd =? "")%string then
             let s := strings_Index fwd ", " in
             let s := if s =? -1 then Z.of_nat (String.length fwd) else s in
             slice_to fwd s
           else
             match net_SplitHostPort (req_RemoteAddr r) with
             | Some ip => ip
             | None => req_RemoteAddr r
             end
       end.

Definition addNonEmpty (key val : string) : list encCall :=
  if negb (val =? "")%string then [CAddString key val] else [].

Definition set_RequestMethod (t : HTTPRequestEntry) (m : string) : HTTPRequestEntry :=
  mkHTTPRequestEntry (Request t) m (RequestURL t) (RequestSize t) (Status t)
    (ResponseSize t) (UserAgent t) (RemoteIP t) (Referer t) (Latency t).

Definition set_Request (t : HTTPRequestEntry) (r : option http_Request)
    : HTTPRequestEntry :=
  mkHTTPRequestEntry r (RequestMethod t) (RequestURL t) (RequestSize t) (Status t)
    (ResponseSize t) (UserAgent t) (RemoteIP t) (Referer t) (Latency t).

(** [HTTPRequestEntry.MarshalLogObject]: the calls on the encoder, in order. *)
Definition HTTPRequestEntry_MarshalLogObject (t : HTTPRequestEntry) : list encCall :=
  let t := if (RequestMethod t =? "")%string then set_RequestMethod t "POST" else t in
  [CAddString "requestMethod" (HTTP_method t)]
  ++ addNonEmpty "requestUrl" (HTTP_url t)
  ++ addNonEmpty "requestSize" (strconv_FormatInt (RequestSize t))
  ++ (if negb (Status t =? 0) then [CAddInteger KInt "status" (Status t)] else [])
  ++ addNonEmpty "responseSize" (strconv_FormatInt (ResponseSize t))
  ++ addNonEmpty "userAgent" (HTTP_userAgent t)
  ++ addNonEmpty "remoteIp" (HTTP_remoteIP t)
  ++ addNonEmpty "referer" (HTTP_referer t)
  ++ (if negb (Latency t =? 0) then [CAddString "latency" (Sprintf_fs (Latency t))]
      else []).

(** *** Notions for the further statements *)

(** The payloads the notification goroutine hands to the delivery. *)
Definition delivered (effs : list effect) : list (string * WebhookMessage) :=
  flat_map (fun e => match e with
                     | EfInvoke url payload => [(url, payload)]
                     | EfWGDone => []
                     end) effs.

Definition released (effs : list effect) : nat :=
  length (filter (fun e => match e with EfWGDone => true | _ => false end) effs).

(** The last string-typed field under the key user, the empty string when
    there is none. *)
Definition last_user (fields : list Field) : string :=
  fold_left (fun u f => if (Key f =? "user")%string && isStringType (Type_ f)
                        then String_ f else u) fields "".

(** The field as [parseFields] forwards a stack trace: the first message,
    a line feed and the text for a string field when a message is given. *)
Definition with_message (msg : list string) (f : Field) : Field :=
  match msg with
  | m :: _ =>
      if isStringType (Type_ f) then set_String f (m ++ LF ++ String_ f)%string
      else f
  | [] => f
  end.

(** A key of the switch of [parseFields]. *)
Definition reservedKey (k : string) : bool :=
  (k =? "user")%string || (k =? "stack_trace")%string
  || (k =? logKeyContextInfo)%string || (k =? logKeySlackNotification)%string.

Definition noComma (s : string) : Prop :=
  forall n, String.get n s <> Some ","%char.

(** *** Further sample values *)

Definition sampleErr : error := mkError "boom failed" None None.

Definition sampleParser (e : error) : iface * bool := (IBytes (err_Error e), true).

Definition sampleErrorField : Field := mkField "error" ErrorType 0 "" (IError sampleErr).

(** Sample error inspection: no error groups, a formatter whose verbose print
    adds the place to the message, and inlined marshalers that add nothing. *)
Definition sample_Causes : error -> option iface := fun _ => None.

Definition sample_Format : error -> option string :=
  fun e => Some (err_Error e ++ " at main.go:10")%string.

Definition sample_Inline : iface -> list encCall * option error :=
  fun _ => ([], None).

Definition sampleRequest : http_Request :=
  mkRequest "GET" "/items" 1 "example.com" "/items" "curl/8.0" ""
    "10.0.0.1, 10.0.0.2" "192.168.0.7:4711".

Definition sampleMD : MD :=
  fun k => if (k =? "x-cloud-trace-context")%string
           then Some ["105445aa7843bc8bf206b12000100000/1;o=1"]
           else None.

(** ** Properties of the classifier *)

Ltac step_cases :=
  repeat match goal with
         | |- context [if ?c then _ else _] => destruct c eqn:?
         | |- context [match ?x with _ => _ end] => destruct x eqn:?
         end.

Lemma parseField_fs s msg st f :
  fs (parseField s msg st f) = fs st ++ emitted s msg f.
Proof.
  unfold emitted, parseField.
  step_cases; cbn; rewrite ?app_nil_r; reflexivity.
Qed.

Lemma parseField_labels s msg st f :
  l_labels (parseField s msg st f) = l_labels st ++ labelled s msg f.
Proof.
  unfold labelled, parseField.
  step_cases; cbn; rewrite ?app_nil_r; reflexivity.
Qed.

Lemma fold_parseField_fs s msg l : forall st,
  fs (fold_left (parseField s msg) l st) = fs st ++ flat_map (emitted s msg) l.
Proof.
  induction l as [|f l IH]; intros st; cbn.
  - now rewrite app_nil_r.
  - rewrite IH, parseField_fs, <- app_assoc. reflexivity.
Qed.

Lemma fold_parseField_labels s msg l : forall st,
  l_labels (fold_left (parseField s msg) l st)
  = l_labels st ++ flat_map (labelled s msg) l.
Proof.
  induction l as [|f l IH]; intros st; cbn.
  - now rewrite app_nil_r.
  - rewrite IH, parseField_labels, <- app_assoc. reflexivity.
Qed.

Lemma parseFields_fs s fields msg :
  fs (parseFields s fields msg)
  = flat_map (emitted s msg) fields
    ++ labelsTail (flat_map (labelled s msg) fields).
Proof.
  unfold parseFields.
  pose proof (fold_parseField_labels s msg fields parse_init) as Hl.
  pose proof (fold_parseField_fs s msg fields parse_init) as Hf.
  cbn in Hl, Hf. rewrite <- Hl.
  destruct (l_labels (fold_left (parseField s msg) fields parse_init)); cbn.
  - now rewrite app_nil_r.
  - now rewrite Hf.
Qed.




Lemma labelled_spec s msg f :
  labelled s msg f = if isLabel f then [toLabel f] else [].
Proof.
  unfold labelled, parseField, isLabel, toLabel.
  destruct (strings_HasPrefix (Key f) logKeyLabelPrefix); [reflexivity|].
  step_cases; reflexivity.
Qed.

Lemma emitted_label s msg f : isLabel f = true -> emitted s msg f = [].
Proof.
  unfold emitted, parseField, isLabel. intros ->. reflexivity.
Qed.

Lemma flat_map_labelled s msg l :
  flat_map (labelled s msg) l = map toLabel (filter isLabel l).
Proof.
  induction l as [|f l IH]; cbn; [reflexivity|].
  rewrite labelled_spec, IH. destruct (isLabel f); reflexivity.
Qed.

Lemma flat_map_emitted_rest s msg l :
  flat_map (emitted s msg) l
  = flat_map (emitted s msg) (filter (fun f => negb (isLabel f)) l).
Proof.
  induction l as [|f l IH]; cbn; [reflexivity|].
  destruct (isLabel f) eqn:E; cbn.
  - now rewrite emitted_label.
  - now rewrite IH.
Qed.

Lemma filter_isLabel_rest l :
  filter isLabel (filter (fun f : Field => negb (isLabel f)) l) = [].
Proof.
  induction l as [|f l IH]; cbn; [reflexivity|].
  destruct (isLabel f) eqn:E; cbn; [assumption|]. now rewrite E.
Qed.

Lemma contextFields_keys info g :
  In g (contextFields info) -> isContextKey (Key g) = true.
Proof.
  unfold contextFields.
  destruct (IsSampled info), (GrpcMethod info =? "")%string,
    (RequestID info =? "")%string; cbn; intros H;
    intuition (subst; reflexivity).
Qed.

Lemma isContextKey_plain k :
  isContextKey k = true ->
  strings_HasPrefix k logKeyLabelPrefix = false /\ (k =? labelsKey)%string = false.
Proof.
  unfold isContextKey, isTraceKey. intros H.
  repeat (apply orb_true_iff in H; destruct H as [H | H]);
    apply String.eqb_eq in H; subst; split; reflexivity.
Qed.

(** Every field a non-label field emits carries that field's key, or is part
    of the expansion of a context field. *)
Lemma emitted_keys s msg f g :
  In g (emitted s msg f) ->
  isLabel f = false
  /\ (Key g = Key f \/ (Key f = logKeyContextInfo /\ isContextKey (Key g) = true)).
Proof.
  unfold emitted, parseField, isLabel.
  destruct (strings_HasPrefix (Key f) logKeyLabelPrefix) eqn:El; [intros []|].
  intros H. split; [reflexivity|]. revert H.
  destruct (Key f =? "user")%string; [destruct (isStringType (Type_ f)); intros []|].
  destruct (Key f =? "stack_trace")%string.
  { destruct msg; [|destruct (isStringType (Type_ f))]; cbn;
      intros [<-|[]]; left; reflexivity. }
  destruct (Key f =? logKeyContextInfo)%string eqn:Ec.
  { apply String.eqb_eq in Ec.
    destruct (Interface f); cbn; try (intros []).
    intros H. right. split; [assumption|]. eapply contextFields_keys; eassumption. }
  destruct (Key f =? logKeySlackNotification)%string.
  { step_cases; intros []. }
  step_cases; cbn; intros [<-|[]]; left; reflexivity.
Qed.

Lemma emitted_default_count s msg f :
  Key f = labelsKey -> count_key labelsKey (emitted s msg f) = 1%nat.
Proof.
  intros H. unfold emitted, parseField, count_key. rewrite H. cbn.
  step_cases; cbn; rewrite ?H; reflexivity.
Qed.

Lemma count_key_none k (l : list Field) :
  (forall g, In g l -> (Key g =? k)%string = false) -> count_key k l = 0%nat.
Proof.
  unfold count_key. induction l as [|g l IH]; intros H; cbn; [reflexivity|].
  rewrite (H g) by (left; reflexivity).
  apply IH. intros g' Hg'. apply H. right. assumption.
Qed.

Lemma emitted_other_count s msg f :
  Key f <> labelsKey -> count_key labelsKey (emitted s msg f) = 0%nat.
Proof.
  intros H. apply count_key_none. intros g Hg.
  apply emitted_keys in Hg. destruct Hg as [_ [Hg | [_ Hg]]].
  - rewrite Hg. now apply String.eqb_neq.
  - now apply isContextKey_plain in Hg.
Qed.

Lemma count_key_app k l1 l2 :
  count_key k (l1 ++ l2) = (count_key k l1 + count_key k l2)%nat.
Proof.
  unfold count_key. now rewrite filter_app, length_app.
Qed.

Lemma count_key_emitted s msg l :
  count_key labelsKey (flat_map (emitted s msg) l) = count_key labelsKey l.
Proof.
  induction l as [|f l IH]; [reflexivity|].
  cbn [flat_map]. rewrite count_key_app, IH.
  unfold count_key at 3. cbn [filter].
  destruct (Key f =? labelsKey)%string eqn:E.
  - apply String.eqb_eq in E. rewrite emitted_default_count by assumption.
    reflexivity.
  - apply String.eqb_neq in E. rewrite emitted_other_count by assumption.
    reflexivity.
Qed.

(** C4. With [ls] the label-prefixed fields of a call and [rest] the others:
    when [ls] is not empty the forward fields are those of [rest] followed,
    at the very end, by one object under the labels key whose entries are the
    fields of [ls] in order, keys stripped of the prefix and values the
    original strings; no forward field has a label-prefixed key; and the
    classifier adds exactly one field under the labels key when [ls] is not
    empty and none when it is empty. *)
Theorem parseFields_labels s fields msg :
  let ls := filter isLabel fields in
  let rest := filter (fun f => negb (isLabel f)) fields in
  let out := fs (parseFields s fields msg) in
  (ls <> [] ->
   out = fs (parseFields s rest msg)
         ++ [zap_Object labelsKey (ILabels (map toLabel ls))])
  /\ (forall e, In e (map toLabel ls) ->
        exists f, In f fields /\ isLabel f = true
                  /\ Key e = strings_TrimPrefix (Key f) logKeyLabelPrefix
                  /\ String_ e = String_ f /\ Type_ e = StringType)
  /\ (forall g, In g out -> isLabel g = false)
  /\ (ls <> [] -> count_key labelsKey out = S (count_key labelsKey fields))
  /\ (ls = [] -> count_key labelsKey out = count_key labelsKey fields
                 /\ out = fs (parseFields s rest msg)).
Proof.
  intros ls rest out.
  assert (Hrest : fs (parseFields s rest msg) = flat_map (emitted s msg) rest).
  { rewrite parseFields_fs, flat_map_labelled. unfold rest.
    rewrite filter_isLabel_rest. cbn. now rewrite app_nil_r. }
  assert (Hout : out = flat_map (emitted s msg) rest ++ labelsTail (map toLabel ls)).
  { unfold out. rewrite parseFields_fs, flat_map_labelled.
    now rewrite (flat_map_emitted_rest s msg fields). }
  assert (Hcount : count_key labelsKey (flat_map (emitted s msg) rest)
                   = count_key labelsKey fields).
  { unfold rest. rewrite <- flat_map_emitted_rest. apply count_key_emitted. }
  split; [|split; [|split; [|split]]].
  - intros Hne. rewrite Hout, Hrest.
    destruct ls; [congruence|]. reflexivity.
  - intros e He. apply in_map_iff in He. destruct He as [f [<- Hf]].
    apply filter_In in Hf. destruct Hf as [Hf Hl].
    exists f. repeat split; assumption.
  - intros g Hg. rewrite Hout in Hg. apply in_app_or in Hg.
    destruct Hg as [Hg | Hg].
    + apply in_flat_map in Hg. destruct Hg as [f [_ Hg]].
      apply emitted_keys in Hg. destruct Hg as [Hf [Hg | [_ Hg]]].
      * unfold isLabel in *. now rewrite Hg.
      * now apply isContextKey_plain in Hg.
    + destruct (map toLabel ls); cbn in Hg; [contradiction|].
      destruct Hg as [<- | []]. reflexivity.
  - intros Hne. rewrite Hout, count_key_app, Hcount.
    destruct ls; [congruence|]. cbn. lia.
  - intros He. rewrite Hout, Hrest, count_key_app, Hcount, He. cbn.
    rewrite app_nil_r. split; [lia | reflexivity].
Qed.

(** *** The Slack marker *)

Lemma parseField_not_Slack s msg st f :
  Key f <> logKeySlackNotification ->
  sendSlack (parseField s msg st f) = sendSlack st
  /\ slackURL (parseField s msg st f) = slackURL st.
Proof.
  intros H. unfold parseField.
  destruct (Key f =? logKeySlackNotification)%string eqn:E;
    [apply String.eqb_eq in E; contradiction|].
  step_cases; cbn; split; reflexivity.
Qed.

Lemma fold_parseField_not_Slack s msg l : forall st,
  Forall (fun g : Field => Key g <> logKeySlackNotification) l ->
  sendSlack (fold_left (parseField s msg) l st) = sendSlack st
  /\ slackURL (fold_left (parseField s msg) l st) = slackURL st.
Proof.
  induction l as [|f l IH]; intros st Hl; cbn; [split; reflexivity|].
  inversion Hl as [|? ? Hf Hl']; subst.
  destruct (IH (parseField s msg st f) Hl') as [-> ->].
  now apply parseField_not_Slack.
Qed.

Lemma parseFields_sendSlack s fields msg :
  sendSlack (parseFields s fields msg)
  = sendSlack (fold_left (parseField s msg) fields parse_init)
  /\ slackURL (parseFields s fields msg)
     = slackURL (fold_left (parseField s msg) fields parse_init).
Proof.
  unfold parseFields.
  destruct (l_labels (fold_left (parseField s msg) fields parse_init));
    split; reflexivity.
Qed.

Lemma parseField_Slack s msg st f :
  Key f = logKeySlackNotification ->
  parseField s msg st f
  = if isBoolType (Type_ f) then
      if Integer f =? 1
      then set_slackURL (set_sendSlack st enableSlack) (sd_slackURL s)
      else set_sendSlack st disableSlack
    else if isStringType (Type_ f) then
      set_slackURL (set_sendSlack st enableSlack) (String_ f)
    else st.
Proof.
  intros H. unfold parseField. rewrite H. reflexivity.
Qed.

(** C9. For the Slack marker [f] of a call (the last one, should the call
    carry several): a boolean true gives [enableSlack] with the core's own
    [slackURL], a boolean false gives [disableSlack], a string gives
    [enableSlack] with that string as destination; and the forward fields
    are those of the call without the marker. *)
Theorem parseFields_SlackNotification s pre f post msg :
  Key f = logKeySlackNotification ->
  Forall (fun g : Field => Key g <> logKeySlackNotification) post ->
  let r := parseFields s (pre ++ f :: post) msg in
  (Type_ f = BoolType -> Integer f = 1 ->
     sendSlack r = enableSlack /\ slackURL r = sd_slackURL s)
  /\ (Type_ f = BoolType -> Integer f <> 1 -> sendSlack r = disableSlack)
  /\ (Type_ f = StringType ->
        sendSlack r = enableSlack /\ slackURL r = String_ f)
  /\ fs r = fs (parseFields s (pre ++ post) msg).
Proof.
  intros Hk Hpost r.
  assert (Hs : sendSlack r
               = sendSlack (parseField s msg
                              (fold_left (parseField s msg) pre parse_init) f)).
  { unfold r. rewrite (proj1 (parseFields_sendSlack _ _ _)).
    rewrite fold_left_app. cbn [fold_left].
    now apply fold_parseField_not_Slack. }
  assert (Hu : slackURL r
               = slackURL (parseField s msg
                             (fold_left (parseField s msg) pre parse_init) f)).
  { unfold r. rewrite (proj2 (parseFields_sendSlack _ _ _)).
    rewrite fold_left_app. cbn [fold_left].
    now apply fold_parseField_not_Slack. }
  rewrite parseField_Slack in Hs, Hu by assumption.
  split; [|split; [|split]].
  - intros Ht Hi. rewrite Ht in Hs, Hu. cbn in Hs, Hu.
    apply Z.eqb_eq in Hi. rewrite Hi in Hs, Hu. split; assumption.
  - intros Ht Hi. rewrite Ht in Hs. cbn in Hs.
    apply Z.eqb_neq in Hi. rewrite Hi in Hs. assumption.
  - intros Ht. rewrite Ht in Hs, Hu. split; assumption.
  - unfold r. rewrite !parseFields_fs, !flat_map_app. cbn [flat_map].
    assert (He : emitted s msg f = []).
    { unfold emitted. rewrite parseField_Slack by assumption.
      step_cases; reflexivity. }
    assert (Hl : labelled s msg f = []).
    { unfold labelled. rewrite parseField_Slack by assumption.
      step_cases; reflexivity. }
    rewrite He, Hl. reflexivity.
Qed.

(** ** Properties of With and Write *)

Lemma parseField_plain s msg st f :
  plain f = true -> parseField s msg st f = append_fs st [f].
Proof.
  unfold plain, isLabel, parseField. intros H.
  repeat (apply andb_true_iff in H; destruct H as [H ?]).
  repeat match goal with
         | H : negb _ = true |- _ => apply negb_true_iff in H; rewrite ?H
         end.
  destruct (sd_errorPraser s); [|reflexivity].
  destruct (Type_ f); try reflexivity. discriminate.
Qed.

Lemma fold_parseField_plain s msg l : forall st,
  forallb plain l = true ->
  fold_left (parseField s msg) l st = append_fs st l.
Proof.
  induction l as [|f l IH]; intros st H; cbn.
  - destruct st; unfold append_fs; cbn. now rewrite app_nil_r.
  - cbn in H. apply andb_true_iff in H. destruct H as [Hf Hl].
    rewrite parseField_plain, IH by assumption.
    unfold append_fs; cbn. now rewrite <- app_assoc.
Qed.

Lemma parseFields_plain s l msg :
  forallb plain l = true ->
  parseFields s l msg = mkLocals [] l "" defaultSlack "".
Proof.
  intros H. unfold parseFields. rewrite fold_parseField_plain by assumption.
  reflexivity.
Qed.

Lemma With_plain s l :
  forallb plain l = true ->
  With s l = mkStackdriver (sd_projectID s) (sd_parent s) (sd_svcCtx s)
               (sd_slackURL s) (sd_errorPraser s) false (sd_user s)
               (sd_fields s ++ l).
Proof.
  intros H. unfold With. rewrite parseFields_plain by assumption. reflexivity.
Qed.

Lemma forallb_plain_app (l1 l2 : list Field) :
  forallb plain (l1 ++ l2) = forallb plain l1 && forallb plain l2.
Proof. apply forallb_app. Qed.

Lemma Write_eq s ent fields :
  let ent' := Write_entry ent in
  let r := parseFields s fields [Message ent'] in
  let out := Write_fields s ent fields in
  Write s ent fields
  = ((if isEnable (sendSlack r) || (isDefault (sendSlack r) && sd_enableSlack s)
      then [EvWGAdd; EvGo (slackURL r) ent' out] else [])
     ++ [EvParentWrite ent' out],
     core_Write (sd_parent s) ent' out).
Proof.
  unfold Write, Write_fields, Write_entry, Write_user, metadata. cbn zeta.
  rewrite <- !app_assoc. reflexivity.
Qed.

Lemma Write_entry_Message ent : Message (Write_entry ent) = prefixed_Message ent.
Proof.
  unfold Write_entry, prefixed_Message.
  destruct (negb (LoggerName ent =? "")%string
            && negb (LoggerName ent =? "unknown")%string); reflexivity.
Qed.

Lemma forwarded_Write s ent fields :
  forwarded (fst (Write s ent fields))
  = [(Write_entry ent, Write_fields s ent fields)].
Proof.
  rewrite Write_eq. cbn [fst]. unfold forwarded. rewrite flat_map_app.
  destruct (isEnable _ || _); reflexivity.
Qed.

Lemma Write_entry_eq ent :
  Write_entry ent
  = mkEntry (ent_Level ent) (ent_Time ent) (LoggerName ent)
      (if negb (LoggerName ent =? "")%string
          && negb (LoggerName ent =? "unknown")%string
       then (LoggerName ent ++ ": " ++ Message ent)%string
       else Message ent)
      (Caller ent).
Proof.
  unfold Write_entry. destruct ent as [l t n m c]. cbn.
  destruct (negb (n =? "")%string && negb (n =? "unknown")%string); reflexivity.
Qed.

(** C6. Whether or not the call starts a notification goroutine, its events
    hold exactly one call of the inner core's [Write], made last, with the
    entry (the caller's entry: same level, time, logger name and caller, and
    the message, prefixed by the logger name when [Write] prefixes it) and the
    final field set (the classifier's forward fields, the scope's fields, the
    three metadata objects), and the result of [Write] is the result of that
    call: nothing the notification does enters it. *)
Theorem Write_forwards_once s ent fields :
  exists ent' out evs,
    ent' = mkEntry (ent_Level ent) (ent_Time ent) (LoggerName ent)
             (if negb (LoggerName ent =? "")%string
                 && negb (LoggerName ent =? "unknown")%string
              then (LoggerName ent ++ ": " ++ Message ent)%string
              else Message ent)
             (Caller ent)
    /\ fst (Write s ent fields) = evs ++ [EvParentWrite ent' out]
    /\ forwarded evs = []
    /\ (evs = [] \/ exists url, evs = [EvWGAdd; EvGo url ent' out])
    /\ forwarded (fst (Write s ent fields)) = [(ent', out)]
    /\ snd (Write s ent fields) = core_Write (sd_parent s) ent' out
    /\ out = fs (parseFields s fields [Message ent']) ++ sd_fields s
             ++ metadata s ent'
                  (Write_user s (parseFields s fields [Message ent'])).
Proof.
  exists (Write_entry ent), (Write_fields s ent fields).
  pose proof (Write_eq s ent fields) as H. cbn zeta in H.
  destruct (isEnable (sendSlack (parseFields s fields [Message (Write_entry ent)]))
            || (isDefault (sendSlack (parseFields s fields [Message (Write_entry ent)]))
                && sd_enableSlack s)).
  - exists [EvWGAdd;
            EvGo (slackURL (parseFields s fields [Message (Write_entry ent)]))
              (Write_entry ent) (Write_fields s ent fields)].
    split; [apply Write_entry_eq|].
    rewrite forwarded_Write, H. cbn.
    repeat split; try reflexivity. right. eexists. reflexivity.
  - exists []. split; [apply Write_entry_eq|].
    rewrite forwarded_Write, H. cbn.
    repeat split; try reflexivity. left. reflexivity.
Qed.

Lemma dispatched_Write s ent fields url ent' out :
  In (url, ent', out) (dispatched (fst (Write s ent fields))) ->
  ent' = Write_entry ent /\ out = Write_fields s ent fields.
Proof.
  rewrite Write_eq. cbn [fst].
  destruct (isEnable _ || _); cbn; intros H;
    [destruct H as [H | []]; now inversion H | contradiction].
Qed.

Lemma Write_entry_Level ent : ent_Level (Write_entry ent) = ent_Level ent.
Proof.
  unfold Write_entry.
  destruct (negb (LoggerName ent =? "")%string
            && negb (LoggerName ent =? "unknown")%string); reflexivity.
Qed.

(** C7. With a logger name that is neither empty nor "unknown", the entry
    that reaches the inner core and the notification goroutine has the name,
    a colon and a space, and the original message as its message; with an
    empty name or the name "unknown" it has the original message. *)
Theorem Write_prefixes_LoggerName s ent fields :
  (LoggerName ent <> "" -> LoggerName ent <> "unknown" ->
   (forall ent' out, In (ent', out) (forwarded (fst (Write s ent fields))) ->
      Message ent' = (LoggerName ent ++ ": " ++ Message ent)%string)
   /\ (forall url ent' out,
         In (url, ent', out) (dispatched (fst (Write s ent fields))) ->
         Message ent' = (LoggerName ent ++ ": " ++ Message ent)%string))
  /\ (LoggerName ent = "" \/ LoggerName ent = "unknown" ->
      (forall ent' out, In (ent', out) (forwarded (fst (Write s ent fields))) ->
         Message ent' = Message ent)
      /\ (forall url ent' out,
            In (url, ent', out) (dispatched (fst (Write s ent fields))) ->
            Message ent' = Message ent))
  /\ exists ent' out, forwarded (fst (Write s ent fields)) = [(ent', out)].
Proof.
  assert (Hd : forall url ent' out,
             In (url, ent', out) (dispatched (fst (Write s ent fields))) ->
             ent' = Write_entry ent).
  { intros url ent' out H. now apply dispatched_Write in H. }
  assert (Hf : forall ent' out,
             In (ent', out) (forwarded (fst (Write s ent fields))) ->
             ent' = Write_entry ent).
  { intros ent' out. rewrite forwarded_Write. cbn.
    intros [H | []]. now inversion H. }
  split; [|split].
  - intros H1 H2.
    assert (Hm : Message (Write_entry ent)
                 = (LoggerName ent ++ ": " ++ Message ent)%string).
    { unfold Write_entry.
      apply String.eqb_neq in H1, H2. rewrite H1, H2. reflexivity. }
    split.
    + intros ent' out H. now rewrite (Hf _ _ H).
    + intros url ent' out H. now rewrite (Hd _ _ _ H).
  - intros H.
    assert (Hm : Message (Write_entry ent) = Message ent).
    { unfold Write_entry. destruct H as [H | H]; rewrite H; reflexivity. }
    split.
    + intros ent' out H'. now rewrite (Hf _ _ H').
    + intros url ent' out H'. now rewrite (Hd _ _ _ H').
  - eexists. eexists. apply forwarded_Write.
Qed.

Lemma With_members s l :
  sd_parent (With s l) = sd_parent s
  /\ sd_svcCtx (With s l) = sd_svcCtx s
  /\ sd_errorPraser (With s l) = sd_errorPraser s
  /\ sd_fields (With s l) = sd_fields s ++ fs (parseFields s l [])
  /\ sd_user (With s l)
     = (if (user (parseFields s l []) =? "")%string
        then sd_user s else user (parseFields s l [])).
Proof.
  unfold With.
  destruct (sendSlack (parseFields s l [])),
    (slackURL (parseFields s l []) =? "")%string; repeat split; reflexivity.
Qed.

(** The forward fields depend on the decorator through its error parser
    only. *)
Lemma parseField_same_parser s s' msg f :
  sd_errorPraser s' = sd_errorPraser s ->
  emitted s' msg f = emitted s msg f /\ labelled s' msg f = labelled s msg f.
Proof.
  intros H. unfold emitted, labelled, parseField. rewrite H.
  step_cases; split; reflexivity.
Qed.

Lemma parseFields_same_parser s s' l msg :
  sd_errorPraser s' = sd_errorPraser s ->
  fs (parseFields s' l msg) = fs (parseFields s l msg).
Proof.
  intros H. rewrite !parseFields_fs.
  assert (He : flat_map (emitted s' msg) l = flat_map (emitted s msg) l).
  { induction l as [|f l IH]; cbn [flat_map]; [reflexivity|].
    now rewrite IH, (proj1 (parseField_same_parser s s' msg f H)). }
  assert (Hl : flat_map (labelled s' msg) l = flat_map (labelled s msg) l).
  { clear He. induction l as [|f l IH]; cbn [flat_map]; [reflexivity|].
    now rewrite IH, (proj2 (parseField_same_parser s s' msg f H)). }
  now rewrite He, Hl.
Qed.

(** C1, as the code has it. Writing [f] on [a.With(x).With(y)] forwards the
    classifier's forward fields of the call first and the inherited ones
    after them: those of [f], the fields of [a], those of [x], those of [y],
    then three metadata objects. For plain fields this is [f], [x], [y] in
    this order, and the forwarded fields are those that [Write] on [a] with
    [x ++ y ++ f] forwards, with the same entry and metadata, in another
    order. *)
Theorem With_With_Write_order a x y f ent :
  (exists ent' meta,
     forwarded (fst (Write (With (With a x) y) ent f))
     = [(ent', fs (parseFields a f [Message ent']) ++ sd_fields a
               ++ fs (parseFields a x []) ++ fs (parseFields a y []) ++ meta)]
     /\ length meta = 3%nat)
  /\ (forallb plain x = true -> forallb plain y = true ->
      forallb plain f = true ->
      exists ent' meta,
        forwarded (fst (Write (With (With a x) y) ent f))
        = [(ent', f ++ sd_fields a ++ x ++ y ++ meta)]
        /\ forwarded (fst (Write a ent (x ++ y ++ f)))
           = [(ent', (x ++ y ++ f) ++ sd_fields a ++ meta)]
        /\ in_order f x y (f ++ sd_fields a ++ x ++ y ++ meta)
        /\ Permutation (f ++ sd_fields a ++ x ++ y ++ meta)
                       ((x ++ y ++ f) ++ sd_fields a ++ meta)).
Proof.
  split.
  - destruct (With_members a x) as (_ & _ & Hp1 & Hf1 & _).
    destruct (With_members (With a x) y) as (_ & _ & Hp2 & Hf2 & _).
    eexists. eexists. split.
    + rewrite forwarded_Write. unfold Write_fields.
      rewrite Hf2, Hf1.
      rewrite (parseFields_same_parser a (With (With a x) y))
        by (now rewrite Hp2, Hp1).
      rewrite (parseFields_same_parser a (With a x) y) by assumption.
      rewrite <- !app_assoc. reflexivity.
    + reflexivity.
  - intros Hx Hy Hf.
    exists (Write_entry ent), (metadata a (Write_entry ent) (sd_user a)).
    assert (Hxyf : forallb plain (x ++ y ++ f) = true).
    { rewrite !forallb_plain_app, Hx, Hy, Hf. reflexivity. }
    split; [|split; [|split]].
    + rewrite forwarded_Write. unfold Write_fields.
      rewrite parseFields_plain by assumption.
      rewrite (With_plain _ y) by assumption.
      rewrite (With_plain a x) by assumption.
      cbn. rewrite <- !app_assoc. reflexivity.
    + rewrite forwarded_Write. unfold Write_fields.
      rewrite parseFields_plain by assumption. reflexivity.
    + exists [], (sd_fields a), [], (metadata a (Write_entry ent) (sd_user a)).
      cbn. reflexivity.
    + replace (f ++ sd_fields a ++ x ++ y
                 ++ metadata a (Write_entry ent) (sd_user a))
        with ((f ++ sd_fields a) ++ (x ++ y)
              ++ metadata a (Write_entry ent) (sd_user a))
        by (rewrite <- !app_assoc; reflexivity).
      replace ((x ++ y ++ f) ++ sd_fields a
                 ++ metadata a (Write_entry ent) (sd_user a))
        with ((x ++ y) ++ (f ++ sd_fields a)
              ++ metadata a (Write_entry ent) (sd_user a))
        by (rewrite <- !app_assoc; reflexivity).
      apply Permutation_app_swap_app.
Qed.

(** C2, on the code. The child's destination is the classifier's when that is
    not empty and the parent's otherwise; but the child's [enableSlack] is
    decided by the classifier's directive alone, so a directive left at
    [defaultSlack] gives [false] whatever the parent has: after
    [With [Slack()]] the flag is set, and a further [With] without marker
    clears it. *)
Theorem With_enableSlack_not_inherited s fields :
  sd_enableSlack (With s fields) = isEnable (sendSlack (parseFields s fields []))
  /\ sd_slackURL (With s fields)
     = (if (slackURL (parseFields s fields []) =? "")%string
        then sd_slackURL s else slackURL (parseFields s fields []))
  /\ sd_enableSlack (With s [Slack []]) = true
  /\ sd_enableSlack (With (With s [Slack []]) []) = false
  /\ sd_enableSlack (With (With s [Slack []]) [zap_String "k" "v"]) = false.
Proof.
  assert (He : forall s' l,
             sd_enableSlack (With s' l)
             = isEnable (sendSlack (parseFields s' l []))).
  { intros s' l. unfold With.
    destruct (sendSlack (parseFields s' l [])),
      (slackURL (parseFields s' l []) =? "")%string; reflexivity. }
  split; [apply He|]. split; [|split; [|split]].
  - unfold With.
    destruct (sendSlack (parseFields s fields [])),
      (slackURL (parseFields s fields []) =? "")%string; reflexivity.
  - rewrite He. reflexivity.
  - rewrite He. reflexivity.
  - rewrite He, parseFields_plain by reflexivity. reflexivity.
Qed.

(** ** Properties of the notifier *)

(** C5. The decision of the default retrier for attempt [n]: below 10, a
    failure in which a rate-limit error is found is retried after exactly its
    retry-after duration; otherwise a failure whose [Retryable()] answers
    false stops the attempts; any other failure is retried after the backoff
    delay for [n]; from 10 on there is no retry. *)
Theorem Retry_policy n err :
  max defaultRetrier = 10
  /\ (n < 10 -> forall d, err_AsRateLimited err = Some d ->
        Retry defaultRetrier n err = (d, true))
  /\ (n < 10 -> err_AsRateLimited err = None -> err_Retryable err = Some false ->
        Retry defaultRetrier n err = (0, false))
  /\ (n < 10 -> err_AsRateLimited err = None -> err_Retryable err <> Some false ->
        Retry defaultRetrier n err = (Backoff_Backoff n, true))
  /\ (10 <= n -> Retry defaultRetrier n err = (0, false)).
Proof.
  unfold Retry, defaultRetrier. cbn [max bo].
  repeat split.
  - intros Hn d Hd. apply Z.leb_gt in Hn. now rewrite Hn, Hd.
  - intros Hn Hd Hr. apply Z.leb_gt in Hn. now rewrite Hn, Hd, Hr.
  - intros Hn Hd Hr. apply Z.leb_gt in Hn. rewrite Hn, Hd.
    destruct (err_Retryable err) as [[|]|]; try reflexivity. congruence.
  - intros Hn. apply Z.leb_le in Hn. now rewrite Hn.
Qed.

(** C10. DPanic is written with severity CRITICAL but has no colour, so for
    an entry of that level the notification goroutine hands nothing to the
    delivery: all it does is release its slot of the wait group. This holds
    in particular for the goroutine [Write] starts for such an entry. *)
Theorem sendSlackNotification_DPanic s slackurl ent fields :
  ent_Level ent = DPanicLevel ->
  EncodeLevel (ent_Level ent) = "CRITICAL"
  /\ levelColorMap (ent_Level ent) = None
  /\ sendSlackNotification s slackurl ent fields = [EfWGDone]
  /\ (forall url ent' out,
        In (url, ent', out) (dispatched (fst (Write s ent fields))) ->
        sendSlackNotification s url ent' out = [EfWGDone]).
Proof.
  intros H.
  assert (Hs : forall url e out,
             ent_Level e = DPanicLevel ->
             sendSlackNotification s url e out = [EfWGDone]).
  { intros url e out He. unfold sendSlackNotification. rewrite He. cbn.
    destruct (url =? "")%string; reflexivity. }
  rewrite H. repeat split.
  - now apply Hs.
  - intros url ent' out Hd. apply dispatched_Write in Hd. destruct Hd as [-> _].
    apply Hs. now rewrite Write_entry_Level.
Qed.

(** *** The encoder *)

Lemma ltb_false_leb (a b : string) : (a <? b)%string = false -> (b <=? a)%string = true.
Proof.
  unfold String.ltb, String.leb. rewrite (String.compare_antisym a b).
  destruct (String.compare b a); cbn; congruence.
Qed.

Lemma ltb_true_leb (a b : string) : (a <? b)%string = true -> (a <=? b)%string = true.
Proof.
  unfold String.ltb, String.leb. destruct (String.compare a b); congruence.
Qed.

Lemma insert_Permutation x l : Permutation (insert x l) (x :: l).
Proof.
  induction l as [|y l IH]; cbn; [reflexivity|].
  destruct (Text x <? Text y)%string; [reflexivity|].
  rewrite IH. apply perm_swap.
Qed.

Lemma sort_Slice_Permutation l : Permutation (sort_Slice l) l.
Proof.
  induction l as [|x l IH]; cbn; [reflexivity|].
  rewrite insert_Permutation. now constructor.
Qed.

Lemma insert_HdRel a x l :
  Text_le a x -> HdRel Text_le a l -> HdRel Text_le a (insert x l).
Proof.
  intros Hax Hl. destruct l as [|y l]; cbn.
  - now constructor.
  - destruct (Text x <? Text y)%string; constructor; [assumption|].
    now inversion Hl.
Qed.

Lemma insert_Sorted x l : Sorted Text_le l -> Sorted Text_le (insert x l).
Proof.
  induction l as [|y l IH]; intros Hs; cbn.
  - repeat constructor.
  - destruct (Text x <? Text y)%string eqn:E.
    + constructor; [assumption|]. constructor. now apply ltb_true_leb.
    + inversion Hs as [|? ? Hs' Hd]; subst.
      constructor; [now apply IH|].
      apply insert_HdRel; [|assumption]. now apply ltb_false_leb.
Qed.

Lemma sort_Slice_Sorted l : Sorted Text_le (sort_Slice l).
Proof.
  induction l as [|x l IH]; cbn; [constructor|]. now apply insert_Sorted.
Qed.

(** The order of [sort] is transitive, so a sorted arrangement of the
    encoder's blocks is unique: whatever algorithm [sort.Slice] runs, it
    returns the list of [sort_Slice]. *)
Lemma string_leb_trans a : forall b c,
  (a <=? b)%string = true -> (b <=? c)%string = true -> (a <=? c)%string = true.
Proof.
  unfold String.leb.
  induction a as [|x a IH]; intros [|y b] [|z c]; cbn; try congruence.
  unfold Ascii.compare.
  destruct (N.compare_spec (N_of_ascii x) (N_of_ascii y)) as [E1|E1|E1];
    destruct (N.compare_spec (N_of_ascii y) (N_of_ascii z)) as [E2|E2|E2];
    try congruence.
  - rewrite E1, E2, N.compare_refl. apply IH.
  - rewrite E1. intros _ _.
    destruct (N.compare_spec (N_of_ascii y) (N_of_ascii z)); try lia; reflexivity.
  - rewrite <- E2. intros _ _.
    destruct (N.compare_spec (N_of_ascii x) (N_of_ascii y)); try lia; reflexivity.
  - intros _ _.
    destruct (N.compare_spec (N_of_ascii x) (N_of_ascii z)); try lia; reflexivity.
Qed.

Lemma string_compare_refl s : String.compare s s = Eq.
Proof.
  induction s as [|c s IH]; cbn; [reflexivity|].
  unfold Ascii.compare. now rewrite N.compare_refl.
Qed.

Lemma Text_le_antisym a b :
  isMrkdwn a -> isMrkdwn b -> Text_le a b -> Text_le b a -> a = b.
Proof.
  unfold isMrkdwn, Text_le. destruct a as [ta xa], b as [tb xb]; cbn.
  intros -> -> H1 H2. f_equal. now apply String.leb_antisym.
Qed.

Lemma Sorted_Text_le_head x l :
  Sorted Text_le (x :: l) -> forall y, In y (x :: l) -> Text_le x y.
Proof.
  intros Hs. apply Sorted_StronglySorted in Hs.
  - inversion Hs as [|? ? _ Hall]; subst. intros y [<- | Hy].
    + unfold Text_le, String.leb. now rewrite string_compare_refl.
    + rewrite Forall_forall in Hall. now apply Hall.
  - intros a b c. apply string_leb_trans.
Qed.

Lemma Sorted_Text_le_unique l1 : forall l2,
  Forall isMrkdwn l1 -> Sorted Text_le l1 -> Sorted Text_le l2 ->
  Permutation l1 l2 -> l1 = l2.
Proof.
  induction l1 as [|x l1 IH]; intros l2 Hm Hs1 Hs2 Hp.
  - apply Permutation_nil in Hp. now subst.
  - destruct l2 as [|y l2]; [apply Permutation_sym, Permutation_nil in Hp; discriminate|].
    assert (Hm2 : Forall isMrkdwn (y :: l2)).
    { rewrite Forall_forall in *. intros z Hz. apply Hm.
      eapply Permutation_in; [apply Permutation_sym; eassumption | assumption]. }
    assert (Hxy : x = y).
    { apply Text_le_antisym.
      - now inversion Hm.
      - now inversion Hm2.
      - apply (Sorted_Text_le_head x l1 Hs1).
        eapply Permutation_in; [apply Permutation_sym; eassumption | now left].
      - apply (Sorted_Text_le_head y l2 Hs2).
        eapply Permutation_in; [eassumption | now left]. }
    subst y. f_equal. apply IH.
    + now inversion Hm.
    + now inversion Hs1.
    + now inversion Hs2.
    + eapply Permutation_cons_inv. eassumption.
Qed.

Lemma sort_Slice_unique l l' :
  Forall isMrkdwn l -> Sorted Text_le l' -> Permutation l' l -> l' = sort_Slice l.
Proof.
  intros Hm Hs Hp. symmetry. apply Sorted_Text_le_unique.
  - rewrite Forall_forall in *. intros z Hz. apply Hm.
    eapply Permutation_in; [apply sort_Slice_Permutation | assumption].
  - apply sort_Slice_Sorted.
  - assumption.
  - rewrite sort_Slice_Permutation. now apply Permutation_sym.
Qed.

(** Every method of the encoder leaves it as it is or adds, through
    [addField], one block: the starred key, a line feed and a text. *)
Lemma invoke_addField c enc :
  fst (invoke c enc) = enc
  \/ exists v, fst (invoke c enc)
               = addField enc (call_key c) (mrkdwn (Sprintf_kv (call_key c) v)).
Proof.
  destruct c; cbn;
    unfold AddArray, AddObject, AddReflected, AddBinary, AddByteString, AddBool,
      AddComplex128, AddComplex64, AddDuration, AddFloat64, AddFloat32,
      AddInteger, AddString, AddTime, OpenNamespace, Sprintf_kcode;
    step_cases; cbn; auto; right; eexists; unfold Sprintf_kv; reflexivity.
Qed.

Lemma addField_error enc b :
  addField enc "error" b = mkSlackEncoder (Fields enc) (Some b).
Proof. reflexivity. Qed.

Lemma addField_other enc key b :
  key <> "error" ->
  addField enc key b = mkSlackEncoder (Fields enc ++ [b]) (ErrField enc).
Proof.
  intros H. unfold addField. apply String.eqb_neq in H. now rewrite H.
Qed.

Lemma invoke_congr c e e' :
  (Fields e = Fields e' -> Fields (fst (invoke c e)) = Fields (fst (invoke c e')))
  /\ (ErrField e = ErrField e' ->
      ErrField (fst (invoke c e)) = ErrField (fst (invoke c e'))).
Proof.
  destruct c; cbn;
    unfold AddArray, AddObject, AddReflected, AddBinary, AddByteString, AddBool,
      AddComplex128, AddComplex64, AddDuration, AddFloat64, AddFloat32,
      AddInteger, AddString, AddTime, OpenNamespace, addField;
    step_cases; cbn; split; intros H; rewrite ?H; reflexivity.
Qed.

Lemma invoke_error_key c e :
  isErrorKey c = true -> Fields (fst (invoke c e)) = Fields e.
Proof.
  unfold isErrorKey. intros H. apply String.eqb_eq in H.
  destruct (invoke_addField c e) as [-> | [v ->]]; [reflexivity|].
  rewrite H. reflexivity.
Qed.

Lemma invoke_other_key c e :
  isErrorKey c = false -> ErrField (fst (invoke c e)) = ErrField e.
Proof.
  unfold isErrorKey. intros H.
  destruct (invoke_addField c e) as [-> | [v ->]]; [reflexivity|].
  unfold addField. rewrite H. reflexivity.
Qed.

Lemma run_body calls : forall e e',
  Fields e = Fields e' ->
  Fields (run calls e)
  = Fields (run (filter (fun c => negb (isErrorKey c)) calls) e').
Proof.
  unfold run. induction calls as [|c calls IH]; intros e e' H; cbn; [assumption|].
  destruct (isErrorKey c) eqn:E; cbn.
  - apply IH. rewrite invoke_error_key by assumption. assumption.
  - apply IH. now apply invoke_congr.
Qed.

Lemma run_header calls : forall e e',
  ErrField e = ErrField e' ->
  ErrField (run calls e) = ErrField (run (filter isErrorKey calls) e').
Proof.
  unfold run. induction calls as [|c calls IH]; intros e e' H; cbn; [assumption|].
  destruct (isErrorKey c) eqn:E; cbn.
  - apply IH. now apply invoke_congr.
  - apply IH. rewrite invoke_other_key by assumption. assumption.
Qed.

Lemma run_isMrkdwn calls : forall e,
  Forall isMrkdwn (Fields e) -> Forall isMrkdwn (Fields (run calls e)).
Proof.
  unfold run. induction calls as [|c calls IH]; intros e He; cbn; [assumption|].
  apply IH. destruct (invoke_addField c e) as [-> | [v ->]]; [assumption|].
  unfold addField. destruct (call_key c =? "error")%string; cbn; [assumption|].
  apply Forall_app. split; [assumption|]. repeat constructor.
Qed.

(** What a method of the encoder returns does not depend on the encoder. *)
Lemma invoke_snd c e e' : snd (invoke c e) = snd (invoke c e').
Proof.
  destruct c; cbn; try reflexivity;
    unfold AddArray, AddObject, AddReflected; step_cases; reflexivity.
Qed.

Lemma run_app calls1 calls2 e : run (calls1 ++ calls2) e = run calls2 (run calls1 e).
Proof. unfold run. apply fold_left_app. Qed.

Lemma invoke_run c e : invoke c e = (run [c] e, snd (invoke c emptyEncoder)).
Proof.
  rewrite (invoke_snd c emptyEncoder e). unfold run. cbn.
  destruct (invoke c e); reflexivity.
Qed.

(** What [field.AddTo] does to the encoder is the sequence of its calls. *)
Lemma Field_encode_calls f enc :
  Field_encode f enc = (run (fst (Field_calls f)) enc, snd (Field_calls f)).
Proof.
  assert (Hd : match Field_method f with
               | Some c => invoke c enc
               | None => (enc, None)
               end
               = (run (fst match Field_method f with
                           | Some c => ([c], snd (invoke c emptyEncoder))
                           | None => ([], None)
                           end) enc,
                  snd match Field_method f with
                      | Some c => ([c], snd (invoke c emptyEncoder))
                      | None => ([], None)
                      end)).
  { destruct (Field_method f) as [c|]; [apply invoke_run | reflexivity]. }
  unfold Field_encode, Field_calls.
  destruct (Type_ f) eqn:Et; try exact Hd.
  - destruct (Interface f) eqn:Ei; try exact Hd.
    unfold encodeError, encodeError_calls. cbn zeta.
    destruct (error_Causes err) as [causes|].
    + change (AddArray (AddString enc (Key f) (err_Error err))
                (Key f ++ "Causes") causes)
        with (invoke (CAddArray (Key f ++ "Causes")%string causes)
                (AddString enc (Key f) (err_Error err))).
      rewrite invoke_run. reflexivity.
    + destruct (error_Format err) as [verbose|]; [|reflexivity].
      destruct (negb (verbose =? err_Error err)%string); reflexivity.
  - destruct (Inline_MarshalLogObject (Interface f)); reflexivity.
Qed.

Lemma Field_AddTo_calls f enc : Field_AddTo f enc = run (AddTo_calls f) enc.
Proof.
  unfold Field_AddTo, AddTo_calls. rewrite Field_encode_calls, run_app.
  destruct (snd (Field_calls f)); reflexivity.
Qed.

Lemma fold_Field_AddTo_calls fields : forall enc,
  fold_left (fun enc field => Field_AddTo field enc) fields enc
  = run (flat_map AddTo_calls fields) enc.
Proof.
  induction fields as [|f fields IH]; intros enc; cbn [fold_left flat_map].
  - reflexivity.
  - now rewrite IH, Field_AddTo_calls, run_app.
Qed.

(** The payload of a delivery, in terms of the encoder the fields leave. *)
Lemma sendSlackNotification_payload s url ent fields color :
  url <> "" -> levelColorMap (ent_Level ent) = Some color ->
  sendSlackNotification s url ent fields
  = [EfInvoke url
       (mkWebhookMessage
          [mkAttachment color
             (SectionBlock
                (Some (mrkdwn (Sprintf_kv (Message ent) (Caller_String (Caller ent)))))
                ([ mrkdwn (Sprintf_kv "Service" (Service (sd_svcCtx s)));
                   mrkdwn (Sprintf_kv "Version" (Version (sd_svcCtx s)));
                   mrkdwn (Sprintf_kv "Time" (Time_Format_RFC3339 (ent_Time ent))) ]
                 ++ match ErrField
                            (fold_left (fun enc field => Field_AddTo field enc)
                               fields emptyEncoder) with
                    | Some e => [e]
                    | None => []
                    end)
              :: match sort_Slice
                         (Fields (fold_left (fun enc field => Field_AddTo field enc)
                                    fields emptyEncoder)) with
                 | [] => []
                 | _ :: _ =>
                     [DividerBlock;
                      SectionBlock None
                        (sort_Slice
                           (Fields (fold_left
                                      (fun enc field => Field_AddTo field enc)
                                      fields emptyEncoder)))]
                 end)]);
     EfWGDone].
Proof.
  intros Hu Hc. unfold sendSlackNotification.
  apply String.eqb_neq in Hu. rewrite Hu, Hc. cbn zeta.
  unfold sort, emptyEncoder. cbn [Fields ErrField app].
  destruct (sort_Slice _); reflexivity.
Qed.

Lemma Field_AddTo_dropped_Object (f : Field) enc :
  Type_ f = ObjectMarshalerType ->
  (Key f = "serviceContext"
   \/ exists buf, yaml_Marshal (Interface f) = inl buf
                  /\ (buf = ("{}" ++ LF)%string \/ buf = "{}" \/ buf = "")) ->
  Field_AddTo f enc = enc.
Proof.
  intros Ht H. unfold Field_AddTo, Field_encode, Field_method. rewrite Ht.
  assert (Hi : invoke (CAddObject (Key f) (Interface f)) enc = (enc, None)).
  { cbn. unfold AddObject. destruct H as [-> | (buf & Hy & Hb)]; [reflexivity|].
    rewrite Hy. destruct (Key f =? "serviceContext")%string; [reflexivity|].
    destruct Hb as [-> | [-> | ->]]; reflexivity. }
  now rewrite Hi.
Qed.

(** C8, as the code has it. For a delivery (a destination, a level with a
    colour) the payload is this: with [calls] the calls on the encoder that
    [AddTo] makes for the fields, the pinned slot of the header holds what
    the calls under the key "error" leave in [ErrField] (each such call
    replaces it, so the last stays), and the body is the sorted body of the
    other calls: a call under "error" never touches the body, whatever the
    method. The body is in ascending order of the blocks' whole [Text] (the
    starred key, a line feed, the value), the only such arrangement of it.
    Every call changes nothing or adds through [addField] one block that
    starts with its starred key. [AddObject] under "serviceContext" adds
    nothing, and neither does [AddObject] of a value that serializes to the
    empty object or the empty string: the payload of fields holding such an
    object field is that of the fields without it. The loop of
    [sendSlackNotification] over the fields is the run of [calls]. *)
Theorem slackEncoder_payload s url ent fields color :
  url <> "" -> levelColorMap (ent_Level ent) = Some color ->
  let calls := flat_map AddTo_calls fields in
  let pinned :=
    match ErrField (run (filter isErrorKey calls) emptyEncoder) with
    | Some e => [e]
    | None => []
    end in
  let body :=
    sort_Slice
      (Fields (run (filter (fun c => negb (isErrorKey c)) calls) emptyEncoder)) in
  sendSlackNotification s url ent fields
  = [EfInvoke url
       (mkWebhookMessage
          [mkAttachment color
             (SectionBlock
                (Some (mrkdwn (Sprintf_kv (Message ent) (Caller_String (Caller ent)))))
                ([ mrkdwn (Sprintf_kv "Service" (Service (sd_svcCtx s)));
                   mrkdwn (Sprintf_kv "Version" (Version (sd_svcCtx s)));
                   mrkdwn (Sprintf_kv "Time" (Time_Format_RFC3339 (ent_Time ent))) ]
                 ++ pinned)
              :: match body with
                 | [] => []
                 | _ :: _ => [DividerBlock; SectionBlock None body]
                 end)]);
     EfWGDone]
  /\ Sorted Text_le body
  /\ (forall l', Sorted Text_le l' -> Permutation l' body -> l' = body)
  /\ (forall c e,
        fst (invoke c e) = e
        \/ exists v, fst (invoke c e)
                     = addField e (call_key c) (mrkdwn (Sprintf_kv (call_key c) v)))
  /\ (forall c e, call_key c = "error" -> Fields (fst (invoke c e)) = Fields e)
  /\ (forall e b, addField e "error" b = mkSlackEncoder (Fields e) (Some b))
  /\ (forall e v, invoke (CAddObject "serviceContext" v) e = (e, None))
  /\ (forall e key v buf,
        yaml_Marshal v = inl buf ->
        buf = ("{}" ++ LF)%string \/ buf = "{}" \/ buf = "" ->
        invoke (CAddObject key v) e = (e, None))
  /\ (forall (pre : list Field) (f : Field) (post : list Field),
        Type_ f = ObjectMarshalerType ->
        (Key f = "serviceContext"
         \/ exists buf, yaml_Marshal (Interface f) = inl buf
                        /\ (buf = ("{}" ++ LF)%string \/ buf = "{}" \/ buf = "")) ->
        sendSlackNotification s url ent (pre ++ f :: post)
        = sendSlackNotification s url ent (pre ++ post))
  /\ (forall enc,
        fold_left (fun enc field => Field_AddTo field enc) fields enc
        = run calls enc).
Proof.
  intros Hu Hc calls pinned body.
  assert (Hbody : sort_Slice
                    (Fields (fold_left (fun enc field => Field_AddTo field enc)
                               fields emptyEncoder)) = body).
  { unfold body, calls. rewrite fold_Field_AddTo_calls. f_equal.
    now apply run_body. }
  assert (Hpin : ErrField (fold_left (fun enc field => Field_AddTo field enc)
                             fields emptyEncoder)
                 = ErrField (run (filter isErrorKey calls) emptyEncoder)).
  { unfold calls. rewrite fold_Field_AddTo_calls. now apply run_header. }
  split; [|split; [|split; [|split; [|split; [|split; [|split; [|split; [|split]]]]]]]].
  - rewrite (sendSlackNotification_payload s url ent fields color Hu Hc).
    rewrite Hbody, Hpin. reflexivity.
  - apply sort_Slice_Sorted.
  - intros l' Hs Hp. unfold body in *. apply sort_Slice_unique.
    + apply run_isMrkdwn. constructor.
    + assumption.
    + rewrite Hp. apply sort_Slice_Permutation.
  - apply invoke_addField.
  - intros c e H. apply invoke_error_key. unfold isErrorKey. now rewrite H.
  - reflexivity.
  - reflexivity.
  - intros e key v buf Hy Hb. cbn. unfold AddObject. rewrite Hy.
    destruct (key =? "serviceContext")%string; [reflexivity|].
    destruct Hb as [-> | [-> | ->]]; reflexivity.
  - intros pre f post Ht Hf. unfold sendSlackNotification.
    rewrite !fold_left_app. cbn [fold_left].
    rewrite (Field_AddTo_dropped_Object f _ Ht Hf). reflexivity.
  - intros enc. apply fold_Field_AddTo_calls.
Qed.

(** ** Further properties of the classifier *)

(** A field that collects no label takes its place among the forward fields
    and leaves those of the other fields as they are. *)
Lemma parseFields_insert s pre f post msg :
  labelled s msg f = [] ->
  exists l1 l2,
    fs (parseFields s (pre ++ f :: post) msg) = l1 ++ emitted s msg f ++ l2
    /\ fs (parseFields s (pre ++ post) msg) = l1 ++ l2.
Proof.
  intros Hl.
  exists (flat_map (emitted s msg) pre),
    (flat_map (emitted s msg) post
     ++ labelsTail (flat_map (labelled s msg) (pre ++ post))).
  rewrite !parseFields_fs, !flat_map_app. cbn [flat_map].
  rewrite Hl. cbn [app]. rewrite <- !app_assoc. split; reflexivity.
Qed.

Lemma user_key_not_label (f : Field) : Key f = "user" -> isLabel f = false.
Proof. unfold isLabel. intros ->. reflexivity. Qed.

Lemma parseField_user s msg st f :
  user (parseField s msg st f)
  = if (Key f =? "user")%string && isStringType (Type_ f)
    then String_ f else user st.
Proof.
  unfold parseField.
  destruct (Key f =? "user")%string eqn:E.
  - apply String.eqb_eq in E. rewrite E. cbn.
    destruct (isStringType (Type_ f)); reflexivity.
  - cbn [andb]. step_cases; reflexivity.
Qed.

Lemma fold_parseField_user s msg l : forall st,
  user (fold_left (parseField s msg) l st)
  = fold_left (fun u f => if (Key f =? "user")%string && isStringType (Type_ f)
                          then String_ f else u) l (user st).
Proof.
  induction l as [|f l IH]; intros st; cbn; [reflexivity|].
  now rewrite IH, parseField_user.
Qed.

Lemma parseFields_user_eq s fields msg :
  user (parseFields s fields msg) = last_user fields.
Proof.
  unfold parseFields, last_user.
  pose proof (fold_parseField_user s msg fields parse_init) as H. cbn in H.
  destruct (l_labels (fold_left (parseField s msg) fields parse_init));
    cbn; assumption.
Qed.

Lemma parseField_user_silent s msg f :
  Key f = "user" -> emitted s msg f = [] /\ labelled s msg f = [].
Proof.
  intros H. unfold emitted, labelled, parseField. rewrite H. cbn.
  destruct (isStringType (Type_ f)); split; reflexivity.
Qed.

(** X1. The user the classifier reports is the string of the last
    string-typed field keyed user of the call, and empty without one; fields
    keyed user, of any type, never reach the forward fields. *)
Theorem parseFields_user s fields msg :
  user (parseFields s fields msg) = last_user fields
  /\ fs (parseFields s fields msg)
     = fs (parseFields s (filter (fun f => negb (Key f =? "user")%string) fields) msg)
  /\ (forall g, In g (fs (parseFields s fields msg)) -> Key g <> "user").
Proof.
  split; [apply parseFields_user_eq|].
  assert (He : forall l,
             flat_map (emitted s msg) l
             = flat_map (emitted s msg)
                 (filter (fun f => negb (Key f =? "user")%string) l)).
  { induction l as [|f l IH]; cbn; [reflexivity|].
    destruct (Key f =? "user")%string eqn:E; cbn.
    - apply String.eqb_eq in E.
      now rewrite (proj1 (parseField_user_silent s msg f E)).
    - now rewrite IH. }
  assert (Hl : forall l,
             flat_map (labelled s msg) l
             = flat_map (labelled s msg)
                 (filter (fun f => negb (Key f =? "user")%string) l)).
  { induction l as [|f l IH]; cbn; [reflexivity|].
    destruct (Key f =? "user")%string eqn:E; cbn.
    - apply String.eqb_eq in E.
      now rewrite (proj2 (parseField_user_silent s msg f E)).
    - now rewrite IH. }
  split.
  - rewrite !parseFields_fs. now rewrite <- He, <- Hl.
  - intros g Hg Hk. rewrite parseFields_fs in Hg.
    apply in_app_or in Hg. destruct Hg as [Hg | Hg].
    + apply in_flat_map in Hg. destruct Hg as [f [_ Hg]].
      pose proof Hg as Hg'. apply emitted_keys in Hg'.
      destruct Hg' as [_ [Hg' | [_ Hg']]].
      * rewrite Hk in Hg'. symmetry in Hg'.
        rewrite (proj1 (parseField_user_silent s msg f Hg')) in Hg. contradiction.
      * rewrite Hk in Hg'. discriminate.
    + destruct (flat_map (labelled s msg) fields); cbn in Hg; [contradiction|].
      destruct Hg as [<- | []]. discriminate.
Qed.

Lemma parseField_stack_trace s msg f :
  Key f = "stack_trace" ->
  emitted s msg f = [with_message msg f] /\ labelled s msg f = [].
Proof.
  intros H. unfold emitted, labelled, parseField, with_message. rewrite H. cbn.
  destruct msg; [|destruct (isStringType (Type_ f))]; split; reflexivity.
Qed.

(** X2. A field keyed stack_trace keeps its place among the forward fields;
    when a message is given (as [Write] does) and the field is a string, its
    text becomes the message, a line feed and the original text, and
    otherwise (another type, or no message, as in [With]) the field is
    forwarded as it is. So a stack trace bound with [With] reaches the inner
    core without the message, and one passed to [Write] with it. *)
Theorem parseFields_stack_trace s pre f post msg :
  Key f = "stack_trace" ->
  (exists l1 l2,
     fs (parseFields s (pre ++ f :: post) msg) = l1 ++ [with_message msg f] ++ l2
     /\ fs (parseFields s (pre ++ post) msg) = l1 ++ l2)
  /\ (forall m rest, Type_ f = StringType ->
        with_message (m :: rest) f = set_String f (m ++ LF ++ String_ f)%string)
  /\ (Type_ f <> StringType -> with_message msg f = f)
  /\ sd_fields (With s [f]) = sd_fields s ++ [f]
  /\ (forall ent, Type_ f = StringType ->
        Write_fields s ent [f]
        = set_String f (prefixed_Message ent ++ LF ++ String_ f)%string
            :: sd_fields s
            ++ metadata s (Write_entry ent) (sd_user s)).
Proof.
  intros Hk. destruct (parseField_stack_trace s msg f Hk) as [He Hl].
  split; [|split; [|split; [|split]]].
  - destruct (parseFields_insert s pre f post msg Hl) as (l1 & l2 & H1 & H2).
    exists l1, l2. rewrite <- He. split; assumption.
  - intros m rest Ht. unfold with_message. now rewrite Ht.
  - intros Ht. unfold with_message. destruct msg; [reflexivity|].
    destruct (Type_ f); try reflexivity. contradiction.
  - rewrite (proj1 (proj2 (proj2 (proj2 (With_members s [f]))))).
    rewrite parseFields_fs. cbn [flat_map].
    rewrite (proj1 (parseField_stack_trace s [] f Hk)),
      (proj2 (parseField_stack_trace s [] f Hk)). reflexivity.
  - intros ent Ht. unfold Write_fields, Write_user.
    rewrite parseFields_user_eq, parseFields_fs. cbn [flat_map].
    rewrite (proj1 (parseField_stack_trace s _ f Hk)),
      (proj2 (parseField_stack_trace s _ f Hk)).
    unfold last_user. cbn [fold_left]. rewrite Hk. cbn.
    unfold with_message. rewrite Ht. cbn. rewrite Write_entry_Message.
    reflexivity.
Qed.

Lemma parseField_default s msg st f :
  isLabel f = false -> reservedKey (Key f) = false ->
  parseField s msg st f
  = match sd_errorPraser s, Type_ f, Interface f with
    | Some errorPraser, ErrorType, IError err =>
        let (obj, ok) := errorPraser err in
        if ok then append_fs st [zap_Object (Key f) obj]
        else append_fs st [f]
    | _, _, _ => append_fs st [f]
    end.
Proof.
  unfold isLabel, reservedKey, parseField. intros -> H.
  repeat (apply orb_false_iff in H; destruct H as [H ?]).
  rewrite H. repeat match goal with E : (_ =? _)%string = false |- _ => rewrite E; clear E end.
  reflexivity.
Qed.

(** X3. A field of error type under no reserved key is replaced, at its
    place, by an object under the same key when an error parser is set and
    accepts the error; it is forwarded as it is when the parser declines,
    when no parser is set, or when the field is of another type. *)
Theorem parseFields_errorPraser s pre f post msg :
  isLabel f = false -> reservedKey (Key f) = false ->
  (forall parser err obj,
     sd_errorPraser s = Some parser -> Type_ f = ErrorType ->
     Interface f = IError err -> parser err = (obj, true) ->
     exists l1 l2,
       fs (parseFields s (pre ++ f :: post) msg)
       = l1 ++ [zap_Object (Key f) obj] ++ l2
       /\ fs (parseFields s (pre ++ post) msg) = l1 ++ l2)
  /\ ((sd_errorPraser s = None
       \/ Type_ f <> ErrorType
       \/ (exists parser err obj,
             sd_errorPraser s = Some parser /\ Interface f = IError err
             /\ parser err = (obj, false))) ->
      exists l1 l2,
        fs (parseFields s (pre ++ f :: post) msg) = l1 ++ [f] ++ l2
        /\ fs (parseFields s (pre ++ post) msg) = l1 ++ l2).
Proof.
  intros Hl Hr.
  assert (Hlab : labelled s msg f = []).
  { rewrite labelled_spec, Hl. reflexivity. }
  destruct (parseFields_insert s pre f post msg Hlab) as (l1 & l2 & H1 & H2).
  split.
  - intros parser err obj Hp Ht Hi Ho. exists l1, l2. split; [|assumption].
    rewrite H1. unfold emitted. rewrite parseField_default by assumption.
    rewrite Hp, Ht, Hi, Ho. reflexivity.
  - intros H. exists l1, l2. split; [|assumption].
    rewrite H1. unfold emitted. rewrite parseField_default by assumption.
    destruct H as [Hn | [Ht | (parser & err & obj & Hp & Hi & Ho)]].
    + rewrite Hn. reflexivity.
    + destruct (sd_errorPraser s); [|reflexivity].
      destruct (Type_ f); try reflexivity. contradiction.
    + rewrite Hp, Hi, Ho. destruct (Type_ f); reflexivity.
Qed.

(** ** Further properties of With and Write *)

Lemma flat_map_labelled_nolabel s msg l :
  forallb (fun f => negb (isLabel f)) l = true ->
  flat_map (labelled s msg) l = [].
Proof.
  intros H. rewrite flat_map_labelled.
  induction l as [|f l IH]; cbn in *; [reflexivity|].
  apply andb_true_iff in H. destruct H as [Hf Hl].
  apply negb_true_iff in Hf. rewrite Hf. now apply IH.
Qed.

Lemma parseFields_app_nolabel s l1 l2 msg :
  forallb (fun f => negb (isLabel f)) l1 = true ->
  fs (parseFields s (l1 ++ l2) msg)
  = fs (parseFields s l1 msg) ++ fs (parseFields s l2 msg).
Proof.
  intros H. rewrite !parseFields_fs, !flat_map_app.
  rewrite (flat_map_labelled_nolabel s msg l1 H). cbn.
  rewrite app_nil_r, <- app_assoc. reflexivity.
Qed.

Lemma parseFields_count_labels s l msg :
  count_key labelsKey (fs (parseFields s l msg))
  = (count_key labelsKey l
     + match filter isLabel l with [] => 0 | _ :: _ => 1 end)%nat.
Proof.
  rewrite parseFields_fs, count_key_app, count_key_emitted, flat_map_labelled.
  destruct (filter isLabel l); reflexivity.
Qed.

Lemma With_With_fields_eq s x y :
  sd_fields (With (With s x) y)
  = sd_fields s ++ fs (parseFields s x []) ++ fs (parseFields s y []).
Proof.
  destruct (With_members s x) as (_ & _ & Hp1 & Hf1 & _).
  destruct (With_members (With s x) y) as (_ & _ & _ & Hf2 & _).
  rewrite Hf2, Hf1, (parseFields_same_parser s (With s x) y) by assumption.
  now rewrite <- app_assoc.
Qed.

(** X4. Deriving with [x] and then with [y] accumulates the scope fields of
    [s], the forward fields of [x] and those of [y]. When [x] holds no
    label-prefixed field this is what deriving once with [x ++ y] gives;
    but labels are grouped per call of [With]: when both [x] and [y] hold a
    label, the two-step scope carries two objects under the labels key where
    the one-step scope carries one. *)
Theorem With_With_fields s x y :
  sd_fields (With (With s x) y)
  = sd_fields s ++ fs (parseFields s x []) ++ fs (parseFields s y [])
  /\ (forallb (fun f => negb (isLabel f)) x = true ->
      sd_fields (With (With s x) y) = sd_fields (With s (x ++ y)))
  /\ (filter isLabel x <> [] -> filter isLabel y <> [] ->
      count_key labelsKey (sd_fields (With (With s x) y))
      = S (count_key labelsKey (sd_fields (With s (x ++ y))))).
Proof.
  split; [apply With_With_fields_eq|]. split.
  - intros H. rewrite With_With_fields_eq.
    rewrite (proj1 (proj2 (proj2 (proj2 (With_members s (x ++ y)))))).
    now rewrite parseFields_app_nolabel.
  - intros Hx Hy. rewrite With_With_fields_eq.
    rewrite (proj1 (proj2 (proj2 (proj2 (With_members s (x ++ y)))))).
    rewrite !count_key_app, !parseFields_count_labels, !count_key_app, filter_app.
    destruct (filter isLabel x); [congruence|].
    destruct (filter isLabel y); [congruence|]. cbn. lia.
Qed.

Lemma Write_fields_last s ent fields :
  exists l,
    Write_fields s ent fields
    = l ++ [zap_Object "context"
              (IErrorReportingContext
                 (mkErrorReportingContext
                    (reportLocationFromEntry (Write_entry ent))
                    (Write_user s (parseFields s fields [Message (Write_entry ent)]))))].
Proof.
  unfold Write_fields, metadata. eexists.
  rewrite !app_assoc.
  change [?a; ?b; ?c] with ([a; b] ++ [c]).
  rewrite !app_assoc. reflexivity.
Qed.

(** X5. The user of the error-reporting context, the last field [Write]
    forwards, is resolved from the call outwards: the last string field
    keyed user of the call when that is not empty, else the one of the
    fields the decorator was derived with, else the user of the decorator
    derived from. *)
Theorem Write_user_resolution s x f ent :
  exists l,
    Write_fields (With s x) ent f
    = l ++ [zap_Object "context"
              (IErrorReportingContext
                 (mkErrorReportingContext
                    (reportLocationFromEntry (Write_entry ent))
                    (if negb (last_user f =? "")%string then last_user f
                     else if negb (last_user x =? "")%string then last_user x
                          else sd_user s)))].
Proof.
  destruct (Write_fields_last (With s x) ent f) as [l H].
  exists l. rewrite H. unfold Write_user.
  rewrite !parseFields_user_eq.
  rewrite (proj2 (proj2 (proj2 (proj2 (With_members s x))))).
  rewrite parseFields_user_eq.
  destruct (last_user f =? "")%string, (last_user x =? "")%string; reflexivity.
Qed.

(** X6. The two call-site views [Write] computes hold the same three values
    of the entry's caller, the trimmed path, the line and the function, and
    are both zero when the caller is not defined; only the keys they are
    marshalled under differ. *)
Theorem call_site_views_agree ent :
  exists p l fn,
    sourceLocation_MarshalLogObject (sourceLocationFromEntry ent)
    = [CAddString "file" p; CAddInteger KInt "line" l; CAddString "function" fn]
    /\ reportLocation_MarshalLogObject (reportLocationFromEntry ent)
       = [CAddString "filePath" p; CAddInteger KInt "lineNumber" l;
          CAddString "functionName" fn]
    /\ (Defined (Caller ent) = false -> p = "" /\ l = 0 /\ fn = "")
    /\ (Defined (Caller ent) = true ->
        p = Caller_TrimmedPath (Caller ent) /\ l = Line (Caller ent)
        /\ fn = Function (Caller ent)).
Proof.
  unfold sourceLocationFromEntry, reportLocationFromEntry.
  destruct (Defined (Caller ent)); cbn.
  - exists (Caller_TrimmedPath (Caller ent)), (Line (Caller ent)),
      (Function (Caller ent)).
    repeat split; discriminate.
  - exists "", 0, "". repeat split; discriminate.
Qed.

(** ** Further properties of the dispatch *)

Lemma sendSlackNotification_no_url s ent out :
  sendSlackNotification s "" ent out = [EfWGDone].
Proof. reflexivity. Qed.

Lemma dispatched_Write_eq s ent fields :
  dispatched (fst (Write s ent fields))
  = if isEnable (sendSlack (parseFields s fields [Message (Write_entry ent)]))
       || (isDefault (sendSlack (parseFields s fields [Message (Write_entry ent)]))
           && sd_enableSlack s)
    then [(slackURL (parseFields s fields [Message (Write_entry ent)]),
           Write_entry ent, Write_fields s ent fields)]
    else [].
Proof.
  rewrite Write_eq. cbn [fst]. destruct (isEnable _ || _); reflexivity.
Qed.

Lemma parseFields_no_Slack s fields msg :
  Forall (fun g : Field => Key g <> logKeySlackNotification) fields ->
  sendSlack (parseFields s fields msg) = defaultSlack
  /\ slackURL (parseFields s fields msg) = "".
Proof.
  intros H. destruct (parseFields_sendSlack s fields msg) as [-> ->].
  apply (fold_parseField_not_Slack s msg fields parse_init H).
Qed.

Lemma parseFields_last_Slack s (pre : list Field) (f : Field) (post : list Field) msg :
  Forall (fun g : Field => Key g <> logKeySlackNotification) post ->
  sendSlack (parseFields s (pre ++ f :: post) msg)
  = sendSlack (parseField s msg (fold_left (parseField s msg) pre parse_init) f)
  /\ slackURL (parseFields s (pre ++ f :: post) msg)
     = slackURL (parseField s msg (fold_left (parseField s msg) pre parse_init) f).
Proof.
  intros H. destruct (parseFields_sendSlack s (pre ++ f :: post) msg) as [-> ->].
  rewrite fold_left_app. cbn [fold_left].
  now apply fold_parseField_not_Slack.
Qed.

(** X7. For a call without a field keyed zapx.slack, [Write] starts the
    notification goroutine exactly when the decorator has [enableSlack] set,
    and then with the empty destination: the decorator's own [slackURL] is
    not passed on. That goroutine only releases its slot, so a Slack marker
    bound with [With] alone never leads to a delivery. *)
Theorem Write_scope_enabled_no_destination s ent fields :
  Forall (fun g : Field => Key g <> logKeySlackNotification) fields ->
  dispatched (fst (Write s ent fields))
  = (if sd_enableSlack s
     then [("", Write_entry ent, Write_fields s ent fields)] else [])
  /\ (forall url ent' out,
        In (url, ent', out) (dispatched (fst (Write s ent fields))) ->
        sendSlackNotification s url ent' out = [EfWGDone]).
Proof.
  intros H.
  destruct (parseFields_no_Slack s fields [Message (Write_entry ent)] H)
    as [Hs Hu].
  assert (Hd : dispatched (fst (Write s ent fields))
               = (if sd_enableSlack s
                  then [("", Write_entry ent, Write_fields s ent fields)]
                  else [])).
  { rewrite dispatched_Write_eq, Hs, Hu. reflexivity. }
  split; [assumption|].
  intros url ent' out Hin. rewrite Hd in Hin.
  destruct (sd_enableSlack s); [|contradiction].
  destruct Hin as [Hin | []]. inversion Hin; subst.
  apply sendSlackNotification_no_url.
Qed.

(** X8. The last Slack marker of a call decides the dispatch whatever the
    decorator's own setting: a boolean false starts no goroutine even on a
    decorator with [enableSlack] set, a boolean true starts one with the
    decorator's [slackURL], a string starts one with that string. *)
Theorem Write_dispatch_marker s ent (pre : list Field) (f : Field)
    (post : list Field) :
  Key f = logKeySlackNotification ->
  Forall (fun g : Field => Key g <> logKeySlackNotification) post ->
  (Type_ f = BoolType -> Integer f <> 1 ->
     dispatched (fst (Write s ent (pre ++ f :: post))) = [])
  /\ (Type_ f = BoolType -> Integer f = 1 ->
        dispatched (fst (Write s ent (pre ++ f :: post)))
        = [(sd_slackURL s, Write_entry ent, Write_fields s ent (pre ++ f :: post))])
  /\ (Type_ f = StringType ->
        dispatched (fst (Write s ent (pre ++ f :: post)))
        = [(String_ f, Write_entry ent, Write_fields s ent (pre ++ f :: post))]).
Proof.
  intros Hk Hpost.
  destruct (parseFields_last_Slack s pre f post [Message (Write_entry ent)] Hpost)
    as [Hs Hu].
  rewrite parseField_Slack in Hs, Hu by assumption.
  pose proof (dispatched_Write_eq s ent (pre ++ f :: post)) as Hd.
  rewrite Hs, Hu in Hd.
  split; [|split].
  - intros Ht Hi. rewrite Hd, Ht. cbn.
    apply Z.eqb_neq in Hi. rewrite Hi. reflexivity.
  - intros Ht Hi. rewrite Hd, Ht. cbn.
    apply Z.eqb_eq in Hi. rewrite Hi. reflexivity.
  - intros Ht. rewrite Hd, Ht. reflexivity.
Qed.

Lemma parseField_slackURL_empty s msg st f :
  sd_slackURL s = "" -> slackURL st = "" ->
  (Key f = logKeySlackNotification -> Type_ f <> StringType) ->
  slackURL (parseField s msg st f) = "".
Proof.
  intros Hs Hst Hf.
  destruct (String.eqb_spec (Key f) logKeySlackNotification) as [E | E].
  - rewrite parseField_Slack by assumption. specialize (Hf E).
    destruct (Type_ f); cbn; try assumption; try contradiction.
    destruct (Integer f =? 1); cbn; assumption.
  - now rewrite (proj2 (parseField_not_Slack s msg st f E)).
Qed.

Lemma parseFields_slackURL_empty s fields msg :
  sd_slackURL s = "" ->
  Forall (fun g : Field => Key g = logKeySlackNotification -> Type_ g <> StringType)
    fields ->
  slackURL (parseFields s fields msg) = "".
Proof.
  intros Hs Hf. rewrite (proj2 (parseFields_sendSlack s fields msg)).
  assert (H : forall st, slackURL st = "" ->
                         slackURL (fold_left (parseField s msg) fields st) = "").
  { induction Hf as [|f l Hf Hl IH]; intros st Hst; cbn; [assumption|].
    apply IH. now apply parseField_slackURL_empty. }
  now apply H.
Qed.

(** X9. Without a Slack URL nothing is delivered by boolean markers: on a
    decorator whose [slackURL] is empty, for fields whose Slack markers are
    not strings, every goroutine [Write] starts only releases its slot, and
    [With] derives a decorator whose [slackURL] is empty again. [Zap] builds
    such a decorator from the other four options. *)
Theorem no_URL_no_delivery s ent fields :
  sd_slackURL s = "" ->
  Forall (fun g : Field => Key g = logKeySlackNotification -> Type_ g <> StringType)
    fields ->
  (forall url ent' out,
     In (url, ent', out) (dispatched (fst (Write s ent fields))) ->
     sendSlackNotification s url ent' out = [EfWGDone])
  /\ sd_slackURL (With s fields) = ""
  /\ (forall core id name ver parser,
        sd_slackURL (Zap core [WithProjectID id; WithService name;
                               WithVersion ver; WithErrorParser parser]) = ""
        /\ sd_slackURL (Zap core []) = "").
Proof.
  intros Hs Hf. split; [|split].
  - intros url ent' out Hin. rewrite dispatched_Write_eq in Hin.
    rewrite (parseFields_slackURL_empty s fields _ Hs Hf) in Hin.
    destruct (isEnable _ || _); [|contradiction].
    destruct Hin as [Hin | []]. inversion Hin; subst.
    apply sendSlackNotification_no_url.
  - unfold With. rewrite (parseFields_slackURL_empty s fields [] Hs Hf). cbn.
    destruct (sendSlack (parseFields s fields [])); cbn; assumption.
  - intros. split; reflexivity.
Qed.

(** ** Further properties of the notifier *)

(** X10. The notification goroutine releases its slot of the wait group
    exactly once, as the last thing it does, on every path. It hands at most
    one payload to the delivery, none exactly when the destination is empty
    or the level has no colour. Otherwise it hands over exactly one, for
    the given destination: one attachment of the level's colour whose first
    block is the header (the starred message and the caller, then service,
    version, time and the block the fields left in the encoder's pinned
    slot, if any), followed, when the fields left a body, by a divider and
    that body in ascending order of text. *)
Theorem sendSlackNotification_effects s url ent out :
  released (sendSlackNotification s url ent out) = 1%nat
  /\ (exists pre, sendSlackNotification s url ent out = pre ++ [EfWGDone]
                  /\ released pre = 0%nat /\ (length pre <= 1)%nat)
  /\ (delivered (sendSlackNotification s url ent out) = []
      <-> url = "" \/ levelColorMap (ent_Level ent) = None)
  /\ (url <> "" ->
      forall color, levelColorMap (ent_Level ent) = Some color ->
      delivered (sendSlackNotification s url ent out)
      = [(url,
          mkWebhookMessage
            [mkAttachment color
               (SectionBlock
                  (Some (mrkdwn (Sprintf_kv (Message ent)
                                   (Caller_String (Caller ent)))))
                  ([ mrkdwn (Sprintf_kv "Service" (Service (sd_svcCtx s)));
                     mrkdwn (Sprintf_kv "Version" (Version (sd_svcCtx s)));
                     mrkdwn (Sprintf_kv "Time"
                               (Time_Format_RFC3339 (ent_Time ent))) ]
                   ++ match ErrField
                              (fold_left (fun enc field => Field_AddTo field enc)
                                 out emptyEncoder) with
                      | Some e => [e]
                      | None => []
                      end)
                :: match sort_Slice
                           (Fields (fold_left
                                      (fun enc field => Field_AddTo field enc)
                                      out emptyEncoder)) with
                   | [] => []
                   | _ :: _ =>
                       [DividerBlock;
                        SectionBlock None
                          (sort_Slice
                             (Fields (fold_left
                                        (fun enc field => Field_AddTo field enc)
                                        out emptyEncoder)))]
                   end)])]
      /\ Sorted Text_le
           (sort_Slice (Fields (fold_left (fun enc field => Field_AddTo field enc)
                                  out emptyEncoder)))
      /\ Permutation
           (sort_Slice (Fields (fold_left (fun enc field => Field_AddTo field enc)
                                  out emptyEncoder)))
           (Fields (fold_left (fun enc field => Field_AddTo field enc)
                      out emptyEncoder))).
Proof.
  destruct (String.eqb_spec url "") as [Hu | Hu].
  { subst url. rewrite sendSlackNotification_no_url.
    split; [reflexivity|]. split; [|split].
    - exists []. split; [reflexivity|]. split; [reflexivity | cbn; lia].
    - split; [intros _; now left | reflexivity].
    - intros Hne. now contradiction Hne. }
  destruct (levelColorMap (ent_Level ent)) as [color|] eqn:Hc.
  2:{ assert (Hn : sendSlackNotification s url ent out = [EfWGDone]).
      { unfold sendSlackNotification. rewrite Hc.
        destruct (url =? "")%string; reflexivity. }
      rewrite Hn.
      split; [reflexivity|]. split; [|split].
      - exists []. split; [reflexivity|]. split; [reflexivity | cbn; lia].
      - split; [intros _; now right | reflexivity].
      - intros _ color Hcol. discriminate Hcol. }
  rewrite (sendSlackNotification_payload s url ent out color Hu Hc).
  split; [reflexivity|]. split; [|split].
  - eexists [_]. split; [reflexivity|]. split; [reflexivity | cbn; lia].
  - cbn. split; [discriminate|]. intros [Hx | Hx]; congruence.
  - intros _ color' Hc'. injection Hc' as <-.
    split; [reflexivity|]. split.
    + apply sort_Slice_Sorted.
    + apply sort_Slice_Permutation.
Qed.

Lemma append_Error_not_error k : ((k ++ "Error") =? "error")%string = false.
Proof.
  apply String.eqb_neq. intros H.
  destruct k as [|c1 [|c2 [|c3 [|c4 [|c5 [|c6 k]]]]]]; cbn in H; discriminate H.
Qed.

Lemma append_Causes_not_error k : ((k ++ "Causes") =? "error")%string = false.
Proof.
  apply String.eqb_neq. intros H.
  destruct k as [|c1 [|c2 [|c3 [|c4 [|c5 [|c6 k]]]]]]; cbn in H; discriminate H.
Qed.

Lemma append_Verbose_not_error k : ((k ++ "Verbose") =? "error")%string = false.
Proof.
  apply String.eqb_neq. intros H.
  destruct k as [|c1 [|c2 [|c3 [|c4 [|c5 [|c6 k]]]]]]; cbn in H; discriminate H.
Qed.

Lemma Field_method_key (f : Field) c : Field_method f = Some c -> call_key c = Key f.
Proof.
  unfold Field_method.
  destruct (Type_ f), (Interface f); intros H; inversion H; reflexivity.
Qed.

Lemma run_ErrField_other calls : forall e,
  Forall (fun c => isErrorKey c = false) calls ->
  ErrField (run calls e) = ErrField e.
Proof.
  unfold run. induction calls as [|c calls IH]; intros e H; cbn; [reflexivity|].
  inversion H as [|? ? Hc Hl]; subst.
  rewrite IH by assumption. now apply invoke_other_key.
Qed.

Lemma run_congr_Fields calls : forall e e',
  Fields e = Fields e' -> Fields (run calls e) = Fields (run calls e').
Proof.
  unfold run. induction calls as [|c calls IH]; intros e e' H; cbn; [assumption|].
  apply IH. now apply invoke_congr.
Qed.

Lemma encodeError_calls_tail key err :
  exists rest,
    encodeError_calls key err = CAddString key (err_Error err) :: rest
    /\ Forall (fun c => isErrorKey c = false) rest
    /\ (error_Causes err = None ->
        error_Format err = None \/ error_Format err = Some (err_Error err) ->
        rest = []).
Proof.
  unfold encodeError_calls. eexists. split; [reflexivity|]. split.
  - destruct (error_Causes err).
    + repeat constructor. apply append_Causes_not_error.
    + destruct (error_Format err) as [v|]; [|constructor].
      destruct (negb (v =? err_Error err)%string); repeat constructor.
      apply append_Verbose_not_error.
  - intros -> [-> | ->]; [reflexivity|].
    now rewrite String.eqb_refl.
Qed.

(** The calls of a field that is not keyed error and is no inlined marshaler
    are not under the key error. *)
Lemma AddTo_calls_other_key (g : Field) :
  Key g <> "error" -> Type_ g <> InlineMarshalerType ->
  Forall (fun c => isErrorKey c = false) (AddTo_calls g).
Proof.
  intros Hk Hi.
  assert (Hfb : forall r : option error,
             Forall (fun c => isErrorKey c = false)
               match r with
               | Some e => [CAddString (Key g ++ "Error")%string (err_Error e)]
               | None => []
               end).
  { intros [e|]; repeat constructor. apply append_Error_not_error. }
  assert (Hd : Forall (fun c => isErrorKey c = false)
                 (fst match Field_method g with
                      | Some c => ([c], snd (invoke c emptyEncoder))
                      | None => ([], None)
                      end)).
  { destruct (Field_method g) as [c|] eqn:Hm; cbn; repeat constructor.
    unfold isErrorKey. rewrite (Field_method_key g c Hm).
    now apply String.eqb_neq. }
  unfold AddTo_calls. apply Forall_app. split; [|apply Hfb].
  unfold Field_calls.
  destruct (Type_ g) eqn:Et; try exact Hd; [|contradiction].
  destruct (Interface g) eqn:Ei; try exact Hd.
  cbn [fst]. destruct (encodeError_calls_tail (Key g) err) as (rest & -> & Hr & _).
  constructor; [|assumption].
  unfold isErrorKey. cbn. now apply String.eqb_neq.
Qed.

(** The calls of an error field keyed error: the message under the key
    error first, then calls under other keys, none for a plain error. *)
Lemma AddTo_calls_error (f : Field) err :
  Key f = "error" -> Type_ f = ErrorType -> Interface f = IError err ->
  exists rest,
    AddTo_calls f = CAddString "error" (err_Error err) :: rest
    /\ Forall (fun c => isErrorKey c = false) rest
    /\ (error_Causes err = None ->
        error_Format err = None \/ error_Format err = Some (err_Error err) ->
        rest = [])
    /\ (forall verbose,
          error_Causes err = None -> error_Format err = Some verbose ->
          verbose <> err_Error err ->
          rest = [CAddString "errorVerbose" verbose]).
Proof.
  intros Hk Ht Hi.
  unfold AddTo_calls, Field_calls. rewrite Ht, Hi, Hk. cbn [fst snd].
  unfold encodeError_calls.
  eexists. split; [reflexivity|]. split; [|split].
  - apply Forall_app. split.
    + destruct (error_Causes err).
      * repeat constructor.
      * destruct (error_Format err) as [v|]; [|constructor].
        destruct (negb (v =? err_Error err)%string); repeat constructor.
    + destruct (error_Causes err); [|constructor].
      destruct (snd _); repeat constructor.
  - intros -> [-> | ->]; [reflexivity|].
    now rewrite String.eqb_refl.
  - intros verbose -> -> Hv. apply String.eqb_neq in Hv. rewrite Hv. reflexivity.
Qed.

(** X11. An error field keyed error, such as zap.Error builds, ends up in
    the pinned slot of the encoder with its message, provided no later field
    is keyed error or an inlined marshaler. A plain error (no error group, no
    formatter with a different verbose print) adds nothing to the body, which
    is that of the fields without it; a formatter with a different verbose
    print adds that print to the body under the key errorVerbose. *)
Theorem error_field_pinned (pre : list Field) (f : Field) (post : list Field) err :
  Key f = "error" -> Type_ f = ErrorType -> Interface f = IError err ->
  Forall (fun g : Field => Key g <> "error" /\ Type_ g <> InlineMarshalerType) post ->
  ErrField (fold_left (fun enc field => Field_AddTo field enc)
              (pre ++ f :: post) emptyEncoder)
  = Some (mrkdwn (Sprintf_kv "error" (err_Error err)))
  /\ (error_Causes err = None ->
      error_Format err = None \/ error_Format err = Some (err_Error err) ->
      Fields (fold_left (fun enc field => Field_AddTo field enc)
                (pre ++ f :: post) emptyEncoder)
      = Fields (fold_left (fun enc field => Field_AddTo field enc)
                  (pre ++ post) emptyEncoder))
  /\ (forall verbose,
        error_Causes err = None -> error_Format err = Some verbose ->
        verbose <> err_Error err ->
        Fields (fold_left (fun enc field => Field_AddTo field enc)
                  (pre ++ [f]) emptyEncoder)
        = Fields (fold_left (fun enc field => Field_AddTo field enc)
                    pre emptyEncoder)
          ++ [mrkdwn (Sprintf_kv "errorVerbose" verbose)]).
Proof.
  intros Hk Ht Hi Hpost.
  destruct (AddTo_calls_error f err Hk Ht Hi) as (rest & Hf & Hr & Hplain & Hverb).
  assert (Hpostc : Forall (fun c => isErrorKey c = false)
                     (flat_map AddTo_calls post)).
  { induction Hpost as [|g l [Hg1 Hg2] Hl IH]; cbn [flat_map]; [constructor|].
    apply Forall_app. split; [now apply AddTo_calls_other_key | assumption]. }
  rewrite !fold_Field_AddTo_calls, !flat_map_app. cbn [flat_map].
  rewrite app_nil_r, !run_app, Hf.
  set (e0 := run (flat_map AddTo_calls pre) emptyEncoder).
  change (run (CAddString "error" (err_Error err) :: rest) e0)
    with (run rest (mkSlackEncoder (Fields e0)
                      (Some (mrkdwn (Sprintf_kv "error" (err_Error err)))))).
  split; [|split].
  - rewrite !run_ErrField_other by assumption. reflexivity.
  - intros Hn Hfm. rewrite (Hplain Hn Hfm).
    apply run_congr_Fields. reflexivity.
  - intros verbose Hn Hfm Hv. rewrite (Hverb verbose Hn Hfm Hv). reflexivity.
Qed.

(** ** Properties of HTTPRequestEntry *)

Lemma addNonEmpty_keys key val :
  Forall (fun c : encCall => call_key c = key) (addNonEmpty key val).
Proof.
  unfold addNonEmpty. destruct (negb (val =? "")%string); repeat constructor.
Qed.

(** X12. The object of an HTTP request entry starts with requestMethod, and
    that is the entry's own [RequestMethod], or POST when it is empty: the
    method of the attached request is never reported. No later call uses
    the key again. *)
Theorem HTTPRequestEntry_requestMethod t :
  exists rest,
    HTTPRequestEntry_MarshalLogObject t
    = CAddString "requestMethod"
        (if (RequestMethod t =? "")%string then "POST" else RequestMethod t)
      :: rest
    /\ Forall (fun c : encCall => call_key c <> "requestMethod") rest.
Proof.
  unfold HTTPRequestEntry_MarshalLogObject. cbn zeta.
  eexists. split.
  - cbn [app]. f_equal. f_equal. unfold HTTP_method.
    destruct (RequestMethod t =? "")%string eqn:E; cbn; [reflexivity|].
    now rewrite E.
  - repeat (apply Forall_app; split);
      try (eapply Forall_impl; [|apply addNonEmpty_keys];
           cbn; intros c ->; discriminate).
    + destruct (negb (Status _ =? 0)); repeat constructor. discriminate.
    + destruct (negb (Latency _ =? 0)); repeat constructor. discriminate.
Qed.

Lemma HTTP_accessors_explicit t :
  (RequestURL t <> "" -> HTTP_url t = RequestURL t)
  /\ (UserAgent t <> "" -> HTTP_userAgent t = UserAgent t)
  /\ (RemoteIP t <> "" -> HTTP_remoteIP t = RemoteIP t)
  /\ (Referer t <> "" -> HTTP_referer t = Referer t).
Proof.
  unfold HTTP_url, HTTP_userAgent, HTTP_remoteIP, HTTP_referer.
  repeat split; intros H; apply String.eqb_neq in H; now rewrite H.
Qed.

Lemma HTTP_accessors_nil t :
  Request t = None ->
  HTTP_url t = RequestURL t /\ HTTP_userAgent t = UserAgent t
  /\ HTTP_remoteIP t = RemoteIP t /\ HTTP_referer t = Referer t.
Proof.
  unfold HTTP_url, HTTP_userAgent, HTTP_remoteIP, HTTP_referer. intros ->.
  repeat split;
    match goal with
    | |- (if negb (?x =? "")%string then _ else _) = _ =>
        destruct (String.eqb_spec x ""); cbn; congruence
    end.
Qed.

(** X13. The explicit members of an HTTP request entry take precedence: when
    the URL, the user agent, the remote IP and the referer are all set, the
    object does not depend on the attached request at all; and without a
    request (nil) it is built from the explicit members alone, the empty
    ones left out. *)
Theorem HTTPRequestEntry_explicit_members t :
  (RequestURL t <> "" -> UserAgent t <> "" -> RemoteIP t <> "" ->
   Referer t <> "" ->
   forall r, HTTPRequestEntry_MarshalLogObject (set_Request t r)
             = HTTPRequestEntry_MarshalLogObject (set_Request t None))
  /\ HTTPRequestEntry_MarshalLogObject (set_Request t None)
     = [CAddString "requestMethod"
          (if (RequestMethod t =? "")%string then "POST" else RequestMethod t)]
       ++ addNonEmpty "requestUrl" (RequestURL t)
       ++ addNonEmpty "requestSize" (strconv_FormatInt (RequestSize t))
       ++ (if negb (Status t =? 0) then [CAddInteger KInt "status" (Status t)] else [])
       ++ addNonEmpty "responseSize" (strconv_FormatInt (ResponseSize t))
       ++ addNonEmpty "userAgent" (UserAgent t)
       ++ addNonEmpty "remoteIp" (RemoteIP t)
       ++ addNonEmpty "referer" (Referer t)
       ++ (if negb (Latency t =? 0)
           then [CAddString "latency" (Sprintf_fs (Latency t))] else []).
Proof.
  assert (Hnil : forall t0,
             HTTPRequestEntry_MarshalLogObject (set_Request t0 None)
             = [CAddString "requestMethod"
                  (if (RequestMethod t0 =? "")%string then "POST"
                   else RequestMethod t0)]
               ++ addNonEmpty "requestUrl" (RequestURL t0)
               ++ addNonEmpty "requestSize" (strconv_FormatInt (RequestSize t0))
               ++ (if negb (Status t0 =? 0)
                   then [CAddInteger KInt "status" (Status t0)] else [])
               ++ addNonEmpty "responseSize" (strconv_FormatInt (ResponseSize t0))
               ++ addNonEmpty "userAgent" (UserAgent t0)
               ++ addNonEmpty "remoteIp" (RemoteIP t0)
               ++ addNonEmpty "referer" (Referer t0)
               ++ (if negb (Latency t0 =? 0)
                   then [CAddString "latency" (Sprintf_fs (Latency t0))] else [])).
  { intros t0. unfold HTTPRequestEntry_MarshalLogObject. cbn zeta.
    destruct (RequestMethod (set_Request t0 None) =? "")%string eqn:E;
      cbn in E; rewrite E.
    - destruct (HTTP_accessors_nil (set_RequestMethod (set_Request t0 None) "POST")
                  eq_refl) as (-> & -> & -> & ->).
      reflexivity.
    - destruct (HTTP_accessors_nil (set_Request t0 None) eq_refl)
        as (-> & -> & -> & ->).
      unfold HTTP_method. cbn. rewrite E. reflexivity. }
  split; [|apply Hnil].
  intros Hu Ha Hi Hr r. rewrite Hnil.
  unfold HTTPRequestEntry_MarshalLogObject. cbn zeta.
  destruct (RequestMethod (set_Request t r) =? "")%string eqn:E;
    cbn in E; rewrite E.
  - destruct (HTTP_accessors_explicit (set_RequestMethod (set_Request t r) "POST"))
      as (H1 & H2 & H3 & H4).
    rewrite (H1 Hu), (H2 Ha), (H3 Hi), (H4 Hr). reflexivity.
  - destruct (HTTP_accessors_explicit (set_Request t r)) as (H1 & H2 & H3 & H4).
    rewrite (H1 Hu), (H2 Ha), (H3 Hi), (H4 Hr).
    unfold HTTP_method. cbn. rewrite E. reflexivity.
Qed.

(** *** The forwarded address *)

Lemma noComma_tail c a : noComma (String c a) -> c <> ","%char /\ noComma a.
Proof.
  unfold noComma. intros H. split.
  - intros Hc. apply (H 0%nat). cbn. now rewrite Hc.
  - intros n. apply (H (S n)).
Qed.

Lemma prefix_comma_false c s :
  c <> ","%char -> String.prefix ", " (String c s) = false.
Proof.
  intros Hc. destruct (String.prefix ", " (String c s)) eqn:E; [|reflexivity].
  apply String.prefix_correct in E. cbn in E. injection E as E _.
  congruence.
Qed.

Lemma index_comma_first a rest :
  noComma a -> String.index 0 ", " (a ++ ", " ++ rest) = Some (String.length a).
Proof.
  induction a as [|c a IH]; intros H.
  - cbn [append String.length].
    change (", " ++ rest)%string with (String "," (String " " rest)).
    cbn [String.index].
    assert (Hp : String.prefix ", " (String "," (String " " rest)) = true).
    { apply String.prefix_correct. cbn. destruct rest; reflexivity. }
    now rewrite Hp.
  - apply noComma_tail in H. destruct H as [Hc Ha].
    change (String c a ++ ", " ++ rest)%string
      with (String c (a ++ ", " ++ rest)).
    cbn [String.length String.index].
    rewrite (prefix_comma_false c _ Hc), (IH Ha). reflexivity.
Qed.

Lemma index_comma_none a : noComma a -> a <> "" -> String.index 0 ", " a = None.
Proof.
  induction a as [|c a IH]; intros H Hne; [congruence|].
  apply noComma_tail in H. destruct H as [Hc Ha].
  cbn [String.index]. rewrite (prefix_comma_false c _ Hc).
  destruct a as [|c' a'].
  - reflexivity.
  - rewrite (IH Ha) by discriminate. reflexivity.
Qed.

Lemma substring_0_length a : substring 0 (String.length a) a = a.
Proof. induction a as [|c a IH]; cbn; [reflexivity|]. now rewrite IH. Qed.

Lemma substring_0_length_append a b : substring 0 (String.length a) (a ++ b) = a.
Proof.
  induction a as [|c a IH]; cbn.
  - destruct b; reflexivity.
  - now rewrite IH.
Qed.

(** X14. The remote IP of an entry without explicit [RemoteIP]: when the
    request carries X-Forwarded-For, it is the first address of that header,
    the text before the first comma and space, or the whole header when
    there is no comma; without the header it is the host of [RemoteAddr], or
    [RemoteAddr] itself when that does not split. *)
Theorem HTTP_remoteIP_forwarded t r :
  RemoteIP t = "" -> Request t = Some r ->
  (forall first rest,
     req_XForwardedFor r = (first ++ ", " ++ rest)%string -> noComma first ->
     HTTP_remoteIP t = first)
  /\ (req_XForwardedFor r <> "" -> noComma (req_XForwardedFor r) ->
      HTTP_remoteIP t = req_XForwardedFor r)
  /\ (req_XForwardedFor r = "" ->
      HTTP_remoteIP t = match net_SplitHostPort (req_RemoteAddr r) with
                        | Some ip => ip
                        | None => req_RemoteAddr r
                        end).
Proof.
  intros Hi Hr. unfold HTTP_remoteIP. rewrite Hi, Hr. cbn [negb String.eqb].
  split; [|split].
  - intros first rest Hf Hn. rewrite Hf.
    assert (Hne : ((first ++ ", " ++ rest) =? "")%string = false).
    { apply String.eqb_neq. destruct first; discriminate. }
    rewrite Hne. cbn [negb]. unfold strings_Index, slice_to.
    rewrite (index_comma_first first rest Hn).
    assert (Hz : (Z.of_nat (String.length first) =? -1) = false)
      by (apply Z.eqb_neq; lia).
    rewrite Hz, Nat2Z.id. apply substring_0_length_append.
  - intros Hne Hn. apply String.eqb_neq in Hne. rewrite Hne. cbn [negb].
    unfold strings_Index, slice_to.
    rewrite (index_comma_none _ Hn) by (now apply String.eqb_neq).
    cbn. rewrite Nat2Z.id. apply substring_0_length.
  - intros He. rewrite He. reflexivity.
Qed.

(** ** Properties of Context and Label *)

Lemma Context_info_members ctx :
  IsSampled (Context_info ctx) = sc_IsSampled (Span_SpanContext (ctx_Span ctx))
  /\ TraceID (Context_info ctx) = sc_TraceID (Span_SpanContext (ctx_Span ctx))
  /\ SpanID (Context_info ctx) = sc_SpanID (Span_SpanContext (ctx_Span ctx))
  /\ GrpcMethod (Context_info ctx) = ctx_Method ctx
  /\ RequestID (Context_info ctx) = extractRequestID ctx.
Proof.
  unfold Context_info. destruct (ctx_Span ctx) as [sctx|]; cbn; repeat split.
Qed.

(** X15. The trace members of a [Context] field always come from the span
    context of the ctx, the zero one for a ctx without span (unsampled, all
    zero identifiers): the condition guarding that branch holds for every
    ctx, so the x-cloud-trace-context header of the metadata is never read.
    Method and request id come from the ctx whatever the span. *)
Theorem Context_ignores_header ctx :
  Context ctx
  = zap_Reflect logKeyContextInfo
      (IContextInfo
         (mkContextInfo (sc_IsSampled (Span_SpanContext (ctx_Span ctx)))
            (sc_TraceID (Span_SpanContext (ctx_Span ctx)))
            (sc_SpanID (Span_SpanContext (ctx_Span ctx)))
            (ctx_Method ctx) (extractRequestID ctx)))
  /\ (forall md,
        IsSampled (Context_info (mkContext (ctx_Span ctx) (ctx_Method ctx) md))
        = IsSampled (Context_info ctx)
        /\ TraceID (Context_info (mkContext (ctx_Span ctx) (ctx_Method ctx) md))
           = TraceID (Context_info ctx)
        /\ SpanID (Context_info (mkContext (ctx_Span ctx) (ctx_Method ctx) md))
           = SpanID (Context_info ctx))
  /\ (ctx_Span ctx = None ->
      IsSampled (Context_info ctx) = false
      /\ TraceID (Context_info ctx) = "00000000000000000000000000000000"
      /\ SpanID (Context_info ctx) = "0000000000000000").
Proof.
  split; [|split].
  - unfold Context. do 2 f_equal.
    destruct (Context_info_members ctx) as (H1 & H2 & H3 & H4 & H5).
    destruct (Context_info ctx); cbn in *. now subst.
  - intros md.
    destruct (Context_info_members ctx) as (-> & -> & -> & _).
    destruct (Context_info_members (mkContext (ctx_Span ctx) (ctx_Method ctx) md))
      as (-> & -> & -> & _).
    cbn. repeat split.
  - intros Hn. destruct (Context_info_members ctx) as (-> & -> & -> & _).
    rewrite Hn. repeat split.
Qed.

(** X16. A call that carries just the [Context] field of a ctx forwards the
    three trace fields exactly when the span of the ctx is sampled, with its
    identifiers, then grpc_method when the method is not empty and
    request_id when the metadata has a first value under x-request-id that
    is not empty; a ctx with nothing of these forwards no field. *)
Theorem parseFields_Context s ctx msg :
  fs (parseFields s [Context ctx] msg)
  = (if sc_IsSampled (Span_SpanContext (ctx_Span ctx))
     then [ zap_Bool "logging.googleapis.com/trace_sampled" true;
            zap_String "logging.googleapis.com/trace"
              (sc_TraceID (Span_SpanContext (ctx_Span ctx)));
            zap_String "logging.googleapis.com/spanId"
              (sc_SpanID (Span_SpanContext (ctx_Span ctx))) ]
     else [])
    ++ (if (ctx_Method ctx =? "")%string then []
        else [zap_String "grpc_method" (ctx_Method ctx)])
    ++ (if (extractRequestID ctx =? "")%string then []
        else [zap_String "request_id" (extractRequestID ctx)])
  /\ (ctx_Span ctx = None -> ctx_Method ctx = "" -> ctx_MD ctx = None ->
      fs (parseFields s [Context ctx] msg) = []).
Proof.
  assert (H : fs (parseFields s [Context ctx] msg)
              = contextFields (Context_info ctx)) by reflexivity.
  assert (H' : contextFields (Context_info ctx)
               = (if sc_IsSampled (Span_SpanContext (ctx_Span ctx))
                  then [ zap_Bool "logging.googleapis.com/trace_sampled" true;
                         zap_String "logging.googleapis.com/trace"
                           (sc_TraceID (Span_SpanContext (ctx_Span ctx)));
                         zap_String "logging.googleapis.com/spanId"
                           (sc_SpanID (Span_SpanContext (ctx_Span ctx))) ]
                  else [])
                 ++ (if (ctx_Method ctx =? "")%string then []
                     else [zap_String "grpc_method" (ctx_Method ctx)])
                 ++ (if (extractRequestID ctx =? "")%string then []
                     else [zap_String "request_id" (extractRequestID ctx)])).
  { unfold contextFields.
    destruct (Context_info_members ctx) as (-> & -> & -> & -> & ->).
    reflexivity. }
  split.
  - now rewrite H, H'.
  - intros Hs Hm Hd. rewrite H, H'. unfold extractRequestID.
    rewrite Hs, Hm, Hd. reflexivity.
Qed.

Lemma prefix_append p s : String.prefix p (p ++ s) = true.
Proof. apply String.prefix_correct. apply substring_0_length_append. Qed.

Lemma substring_append_drop p s :
  substring (String.length p) (String.length (p ++ s) - String.length p) (p ++ s)
  = s.
Proof.
  induction p as [|c p IH]; cbn.
  - rewrite Nat.sub_0_r. apply substring_0_length.
  - assumption.
Qed.

Lemma Label_isLabel key val : isLabel (Label key val) = true.
Proof. unfold isLabel, Label, strings_HasPrefix. cbn [Key zap_String]. apply prefix_append. Qed.

Lemma Label_toLabel key val : toLabel (Label key val) = zap_String key val.
Proof.
  unfold toLabel, Label, strings_TrimPrefix, strings_HasPrefix.
  cbn [Key String_ zap_String].
  rewrite prefix_append, substring_append_drop. reflexivity.
Qed.

(** X17. Labels round-trip through the classifier: the fields [Label] builds
    from keys and values come back as one labels object whose entries are
    exactly these keys and values in order, also for keys that themselves
    begin with the label prefix; mixed with other fields, each [Label] field
    is collected and yields the entry of its key and value. *)
Theorem Label_round_trip s (kvs : list (string * string)) msg :
  (kvs <> [] ->
   fs (parseFields s (map (fun kv => Label (fst kv) (snd kv)) kvs) msg)
   = [zap_Object labelsKey
        (ILabels (map (fun kv => zap_String (fst kv) (snd kv)) kvs))])
  /\ (forall key val,
        isLabel (Label key val) = true
        /\ toLabel (Label key val) = zap_String key val).
Proof.
  split.
  - intros Hne. rewrite parseFields_fs, flat_map_labelled.
    assert (He : forall l : list (string * string),
               flat_map (emitted s msg) (map (fun kv => Label (fst kv) (snd kv)) l)
               = []).
    { induction l as [|kv l IH]; cbn [map flat_map]; [reflexivity|].
      rewrite IH, emitted_label by apply Label_isLabel. reflexivity. }
    assert (Hl : forall l : list (string * string),
               map toLabel (filter isLabel (map (fun kv => Label (fst kv) (snd kv)) l))
               = map (fun kv => zap_String (fst kv) (snd kv)) l).
    { induction l as [|kv l IH]; cbn [map filter]; [reflexivity|].
      rewrite Label_isLabel. cbn [map]. now rewrite IH, Label_toLabel. }
    rewrite He, Hl. destruct kvs; [congruence|]. reflexivity.
  - intros key val. split; [apply Label_isLabel | apply Label_toLabel].
Qed.

(** ** Properties of Zap and of derived decorators *)

Lemma In_Write_fields_serviceContext s ent fields :
  In (zap_Object "serviceContext" (IServiceContext (sd_svcCtx s)))
     (Write_fields s ent fields).
Proof.
  unfold Write_fields, metadata. apply in_or_app; right. apply in_or_app; right.
  right. left. reflexivity.
Qed.

(** X18. Options apply in order, so the last option of a kind settles its
    member whatever came before: after any options, [WithService] and
    [WithVersion] give the root decorator that service context, which every
    [Write] on it forwards as the serviceContext object, and [WithSlackURL]
    gives it that URL; with no options at all service and version are both
    unknown. *)
Theorem Zap_last_option_wins core opts name ver url ent fields :
  sd_svcCtx (Zap core (opts ++ [WithService name; WithVersion ver]))
  = mkServiceContext name ver
  /\ In (zap_Object "serviceContext"
           (IServiceContext (mkServiceContext name ver)))
        (Write_fields (Zap core (opts ++ [WithService name; WithVersion ver]))
           ent fields)
  /\ sd_slackURL (Zap core (opts ++ [WithSlackURL url])) = url
  /\ In (zap_Object "serviceContext"
           (IServiceContext (mkServiceContext "unknown" "unknown")))
        (Write_fields (Zap core []) ent fields).
Proof.
  assert (H : sd_svcCtx (Zap core (opts ++ [WithService name; WithVersion ver]))
              = mkServiceContext name ver).
  { unfold Zap. rewrite fold_left_app. reflexivity. }
  split; [assumption|]. split; [|split].
  - rewrite <- H. apply In_Write_fields_serviceContext.
  - unfold Zap. rewrite fold_left_app. reflexivity.
  - apply (In_Write_fields_serviceContext (Zap core []) ent fields).
Qed.

(** X19. A decorator derived with [With] keeps the inner core, the project,
    the service context and the error parser of its origin: it answers
    [Enabled] alike, and what it writes goes to the same inner core, whose
    answer it returns. *)
Theorem With_keeps_core s l ent fields lv :
  Enabled (With s l) lv = Enabled s lv
  /\ sd_parent (With s l) = sd_parent s
  /\ sd_projectID (With s l) = sd_projectID s
  /\ sd_svcCtx (With s l) = sd_svcCtx s
  /\ sd_errorPraser (With s l) = sd_errorPraser s
  /\ snd (Write (With s l) ent fields)
     = core_Write (sd_parent s) (Write_entry ent)
         (Write_fields (With s l) ent fields).
Proof.
  destruct (With_members s l) as (Hp & Hc & He & _).
  assert (Hid : sd_projectID (With s l) = sd_projectID s).
  { unfold With.
    destruct (sendSlack (parseFields s l [])),
      (slackURL (parseFields s l []) =? "")%string; reflexivity. }
  repeat split; try assumption.
  - unfold Enabled. now rewrite Hp.
  - rewrite Write_eq. cbn [snd]. now rewrite Hp.
Qed.

End Zapx.

(** ** Instances *)

(** The statements above at sample values, with [unit] for the foreign
    values and [File] for the trimmed path. *)

(** C1 as stated fails: with scope fields x then y and call field f, the
    forwarded list starts with f, and x, y, f do not occur in it in this
    order. *)
Lemma With_With_Write_order_counterexample :
  exists ent' out,
    forwarded
      (fst (Write (Any := unit) File
              (With (With sampleRoot [zap_String "x" "1"]) [zap_String "y" "2"])
              sampleEntry [zap_String "f" "3"]))
    = [(ent', out)]
    /\ firstn 3 out = [zap_String "f" "3"; zap_String "x" "1"; zap_String "y" "2"]
    /\ ~ in_order [zap_String "x" "1"] [zap_String "y" "2"] [zap_String "f" "3"] out.
Proof.
  eexists. eexists. split; [vm_compute; reflexivity|]. split; [reflexivity|].
  intros (l1 & l2 & l3 & l4 & H). cbn [app] in H.
  destruct l1 as [|g l1]; cbn [app] in H.
  - discriminate H.
  - injection H as _ H.
    assert (Hin : In (zap_String (Any := unit) "f" "3")
                     (l1 ++ zap_String "x" "1" :: l2 ++ zap_String "y" "2"
                         :: l3 ++ zap_String "f" "3" :: l4)).
    { apply in_or_app; right; right. apply in_or_app; right; right.
      apply in_or_app; right; left. reflexivity. }
    rewrite <- H in Hin. cbn in Hin.
    destruct Hin as [E|[E|[E|[E|[E|[]]]]]]; discriminate E.
Qed.

Lemma With_With_Write_order_witness :
  exists ent' meta,
    forwarded
      (fst (Write (Any := unit) File
              (With (With sampleRoot [zap_String "x" "1"]) [zap_String "y" "2"])
              sampleEntry [zap_String "f" "3"]))
    = [(ent', [zap_String "f" "3"; zap_String "x" "1"; zap_String "y" "2"] ++ meta)].
Proof.
  destruct (proj2 (With_With_Write_order (Any := unit) File sampleRoot
                     [zap_String "x" "1"] [zap_String "y" "2"]
                     [zap_String "f" "3"] sampleEntry)
              eq_refl eq_refl eq_refl)
    as (ent' & meta & H & _).
  exists ent', meta. exact H.
Defined.


Lemma parseFields_labels_witness :
  fs (parseFields (Any := unit) sampleRoot
        [Label "a" "1"; zap_String "k" "v"; Label "b" "2"] [])
  = [ zap_String "k" "v";
      zap_Object labelsKey (ILabels [zap_String "a" "1"; zap_String "b" "2"]) ].
Proof.
  apply (proj1 (parseFields_labels (Any := unit) sampleRoot
                  [Label "a" "1"; zap_String "k" "v"; Label "b" "2"] [])).
  discriminate.
Defined.

(** C4 as stated fails: a field the caller passes under the labels key is
    forwarded as it is, so with one label the forward fields hold two fields
    under that key, and without any label they hold one. *)
Lemma parseFields_labels_counterexample :
  fs (parseFields (Any := unit) sampleRoot
        [Label "a" "1"; zap_Object labelsKey (IAny tt)] [])
  = [ zap_Object labelsKey (IAny tt);
      zap_Object labelsKey (ILabels [zap_String "a" "1"]) ]
  /\ count_key labelsKey
       (fs (parseFields (Any := unit) sampleRoot
              [Label "a" "1"; zap_Object labelsKey (IAny tt)] []))
     = 2%nat
  /\ filter isLabel [zap_Object (Any := unit) labelsKey (IAny tt)] = []
  /\ fs (parseFields (Any := unit) sampleRoot
           [zap_Object labelsKey (IAny tt)] [])
     = [zap_Object labelsKey (IAny tt)].
Proof.
  repeat split; vm_compute; reflexivity.
Qed.

Lemma parseFields_SlackNotification_witness :
  (sendSlack (parseFields (Any := unit) sampleRoot
                ([zap_String "k" "v"] ++ Slack [] :: [zap_String "j" "w"]) [])
   = enableSlack
   /\ slackURL (parseFields (Any := unit) sampleRoot
                  ([zap_String "k" "v"] ++ Slack [] :: [zap_String "j" "w"]) [])
      = "https://hook")
  /\ sendSlack (parseFields (Any := unit) sampleRoot
                  ([] ++ zap_Bool logKeySlackNotification false :: []) [])
     = disableSlack
  /\ slackURL (parseFields (Any := unit) sampleRoot
                 ([] ++ Slack ["https://other"] :: []) [])
     = "https://other".
Proof.
  assert (Hpost : Forall (fun g : FieldOf (@iface unit) =>
                            Key g <> logKeySlackNotification)
                         [zap_String "j" "w"]).
  { constructor; [discriminate | constructor]. }
  split; [|split].
  - apply (proj1 (parseFields_SlackNotification (Any := unit) sampleRoot
                    [zap_String "k" "v"] (Slack []) [zap_String "j" "w"] []
                    eq_refl Hpost)
             eq_refl eq_refl).
  - apply (proj1 (proj2 (parseFields_SlackNotification (Any := unit) sampleRoot
                           [] (zap_Bool logKeySlackNotification false) [] []
                           eq_refl (Forall_nil _)))
             eq_refl).
    discriminate.
  - apply (proj1 (proj2 (proj2 (parseFields_SlackNotification (Any := unit)
                                  sampleRoot [] (Slack ["https://other"]) [] []
                                  eq_refl (Forall_nil _))))
             eq_refl).
Defined.

Lemma Retry_policy_witness :
  Retry (defaultRetrier (fun n => 100 * 2 ^ n)) 1
    (mkError "rate limited" (Some 2000000000) (Some true))
  = (2000000000, true)
  /\ Retry (defaultRetrier (fun n => 100 * 2 ^ n)) 1
       (mkError "bad request" None (Some false))
     = (0, false)
  /\ Retry (defaultRetrier (fun n => 100 * 2 ^ n)) 3 (mkError "timeout" None None)
     = (800, true)
  /\ Retry (defaultRetrier (fun n => 100 * 2 ^ n)) 10 (mkError "timeout" None None)
     = (0, false).
Proof.
  split; [|split; [|split]].
  - apply (proj1 (proj2 (Retry_policy (fun n => 100 * 2 ^ n) 1
                           (mkError "rate limited" (Some 2000000000) (Some true))))).
    + lia.
    + reflexivity.
  - apply (proj1 (proj2 (proj2 (Retry_policy (fun n => 100 * 2 ^ n) 1
                                  (mkError "bad request" None (Some false)))))).
    + lia.
    + reflexivity.
    + reflexivity.
  - apply (proj1 (proj2 (proj2 (proj2 (Retry_policy (fun n => 100 * 2 ^ n) 3
                                         (mkError "timeout" None None)))))).
    + lia.
    + reflexivity.
    + discriminate.
  - apply (proj2 (proj2 (proj2 (proj2 (Retry_policy (fun n => 100 * 2 ^ n) 10
                                         (mkError "timeout" None None)))))).
    lia.
Defined.

Lemma Write_prefixes_LoggerName_witness :
  (forall ent' out,
     In (ent', out)
        (forwarded (fst (Write (Any := unit) File sampleRoot sampleEntry
                           [Slack []; zap_String "k" "v"]))) ->
     Message ent' = "svc: boom")
  /\ (forall ent' out,
        In (ent', out)
           (forwarded
              (fst (Write (Any := unit) File sampleRoot
                      (mkEntry ErrorLevel 0 "unknown" "boom" (Caller sampleEntry))
                      [zap_String "k" "v"]))) ->
        Message ent' = "boom").
Proof.
  split.
  - apply (proj1 (Write_prefixes_LoggerName (Any := unit) File sampleRoot
                    sampleEntry [Slack []; zap_String "k" "v"])).
    + discriminate.
    + discriminate.
  - apply (proj1 (proj2 (Write_prefixes_LoggerName (Any := unit) File sampleRoot
                           (mkEntry ErrorLevel 0 "unknown" "boom" (Caller sampleEntry))
                           [zap_String "k" "v"]))).
    right. reflexivity.
Defined.

(** C8 as stated fails: the label a sorts before the label a b, yet the body
    of the payload holds the block of a b first, the space being smaller than
    the closing star; a string field keyed serviceContext is in the body; and
    the verbose print of a field keyed error is in the body too. *)
Lemma slackEncoder_payload_counterexample :
  ("a" <? "a b")%string = true
  /\ exists header,
       sendSlackNotification (Any := unit) sample_yaml (fun b => b) sample_fmt
           sample_fmt sample_fmt (fun _ => "0") sample_fmt sample_fmt sample_fmt
           (fun z => z) (fun _ => "") File sample_Causes sample_Format
           sample_Inline sampleRoot "https://hook" sampleEntry
         [zap_String "a" "x"; sampleErrorField; zap_String "a b" "y";
          zap_String "serviceContext" "z"]
       = [EfInvoke "https://hook"
            (mkWebhookMessage
               [mkAttachment "#D50000"
                  [ header;
                    DividerBlock;
                    SectionBlock None
                      [ mrkdwn (Sprintf_kv "a b" "y");
                        mrkdwn (Sprintf_kv "a" "x");
                        mrkdwn (Sprintf_kv "errorVerbose"
                                  "boom failed at main.go:10");
                        mrkdwn (Sprintf_kv "serviceContext" "z") ] ]]);
          EfWGDone].
Proof.
  split; [reflexivity|]. eexists. vm_compute. reflexivity.
Qed.

Lemma slackEncoder_payload_witness :
  sendSlackNotification (Any := unit) sample_yaml (fun b => b) sample_fmt
           sample_fmt sample_fmt (fun _ => "0") sample_fmt sample_fmt sample_fmt
           (fun z => z) (fun _ => "") File sample_Causes sample_Format
           sample_Inline sampleRoot "https://hook" sampleEntry
    [zap_String "b" "2"; sampleErrorField;
     zap_Object "serviceContext" (IServiceContext (mkServiceContext "s" "v"));
     zap_Object "logging.googleapis.com/labels" (ILabels []);
     zap_Bool "a" true]
  = [EfInvoke "https://hook"
       (mkWebhookMessage
          [mkAttachment "#D50000"
             [ SectionBlock
                 (Some (mrkdwn (Sprintf_kv "boom" "main.go")))
                 [ mrkdwn (Sprintf_kv "Service" "unknown");
                   mrkdwn (Sprintf_kv "Version" "unknown");
                   mrkdwn (Sprintf_kv "Time" "0");
                   mrkdwn (Sprintf_kv "error" "boom failed") ];
               DividerBlock;
               SectionBlock None
                 [ mrkdwn (Sprintf_kv "a" "true");
                   mrkdwn (Sprintf_kv "b" "2");
                   mrkdwn (Sprintf_kv "errorVerbose"
                             "boom failed at main.go:10") ] ]]);
     EfWGDone]
  /\ sendSlackNotification (Any := unit) sample_yaml (fun b => b) sample_fmt
           sample_fmt sample_fmt (fun _ => "0") sample_fmt sample_fmt sample_fmt
           (fun z => z) (fun _ => "") File sample_Causes sample_Format
           sample_Inline sampleRoot "https://hook" sampleEntry
       ([zap_String "b" "2"]
        ++ zap_Object "serviceContext"
             (IServiceContext (mkServiceContext "s" "v"))
        :: [zap_Bool "a" true])
     = sendSlackNotification (Any := unit) sample_yaml (fun b => b) sample_fmt
           sample_fmt sample_fmt (fun _ => "0") sample_fmt sample_fmt sample_fmt
           (fun z => z) (fun _ => "") File sample_Causes sample_Format
           sample_Inline sampleRoot "https://hook" sampleEntry
         ([zap_String "b" "2"] ++ [zap_Bool "a" true]).
Proof.
  assert (Hu : "https://hook" <> "") by discriminate.
  split.
  - rewrite (proj1 (slackEncoder_payload (Any := unit) sample_yaml (fun b => b)
                      sample_fmt sample_fmt sample_fmt (fun _ => "0") sample_fmt
                      sample_fmt sample_fmt (fun z => z) (fun _ => "") File
                      sample_Causes sample_Format sample_Inline
                      sampleRoot "https://hook" sampleEntry _ "#D50000"
                      Hu eq_refl)).
    vm_compute. reflexivity.
  - apply (proj1 (proj2 (proj2 (proj2 (proj2 (proj2 (proj2 (proj2 (proj2
             (slackEncoder_payload (Any := unit) sample_yaml (fun b => b)
                sample_fmt sample_fmt sample_fmt (fun _ => "0") sample_fmt
                sample_fmt sample_fmt (fun z => z) (fun _ => "") File
                sample_Causes sample_Format sample_Inline
                sampleRoot "https://hook" sampleEntry [] "#D50000"
                Hu eq_refl)))))))))).
    + reflexivity.
    + left. reflexivity.
Defined.

Lemma sendSlackNotification_DPanic_witness :
  sendSlackNotification (Any := unit) sample_yaml (fun b => b) sample_fmt
    sample_fmt sample_fmt (fun _ => "0") sample_fmt sample_fmt sample_fmt
    (fun z => z) (fun _ => "") File sample_Causes sample_Format sample_Inline sampleRoot "https://hook"
    (mkEntry DPanicLevel 0 "svc" "boom" (Caller sampleEntry))
    [zap_String "k" "v"]
  = [EfWGDone].
Proof.
  apply (proj1 (proj2 (proj2
           (sendSlackNotification_DPanic (Any := unit) File sample_yaml
              (fun b => b) sample_fmt sample_fmt sample_fmt (fun _ => "0")
              sample_fmt sample_fmt sample_fmt (fun z => z) (fun _ => "") File sample_Causes sample_Format sample_Inline
              sampleRoot "https://hook"
              (mkEntry DPanicLevel 0 "svc" "boom" (Caller sampleEntry))
              [zap_String "k" "v"] eq_refl)))).
Defined.

(** ** Instances of the further properties *)

Lemma parseFields_user_witness :
  ~ In (zap_String "user" "alice")
       (fs (parseFields (Any := unit) sampleRoot
              [zap_String "user" "alice"; zap_String "k" "v";
               zap_Bool "user" true] ["boom"])).
Proof.
  intros H.
  exact (proj2 (proj2 (parseFields_user (Any := unit) sampleRoot
                         [zap_String "user" "alice"; zap_String "k" "v";
                          zap_Bool "user" true] ["boom"]))
           (zap_String "user" "alice") H eq_refl).
Defined.

Lemma parseFields_stack_trace_witness :
  Write_fields (Any := unit) File sampleRoot sampleEntry
    [zap_String "stack_trace" "main.go:10"]
  = set_String (zap_String "stack_trace" "main.go:10")
      (prefixed_Message sampleEntry ++ LF ++ "main.go:10")%string
      :: sd_fields sampleRoot
      ++ metadata File sampleRoot (Write_entry sampleEntry)
           (sd_user (@sampleRoot unit)).
Proof.
  apply (proj2 (proj2 (proj2 (proj2
           (parseFields_stack_trace (Any := unit) File sampleRoot []
              (zap_String "stack_trace" "main.go:10") [] [] eq_refl))))
           sampleEntry).
  reflexivity.
Defined.

Lemma parseFields_errorPraser_witness :
  exists l1 l2,
    fs (parseFields (Any := unit)
          (WrapCore (WithErrorParser sampleParser default_option) nopCore)
          ([zap_String "k" "v"] ++ mkField "err" ErrorType 0 "" (IError sampleErr)
                                :: []) [])
    = l1 ++ [zap_Object "err" (IBytes "boom failed")] ++ l2
    /\ fs (parseFields
             (WrapCore (WithErrorParser sampleParser default_option) nopCore)
             ([zap_String "k" "v"] ++ []) [])
       = l1 ++ l2.
Proof.
  apply (proj1 (parseFields_errorPraser (Any := unit)
                  (WrapCore (WithErrorParser sampleParser default_option) nopCore)
                  [zap_String "k" "v"]
                  (mkField "err" ErrorType 0 "" (IError sampleErr)) [] []
                  eq_refl eq_refl)
           sampleParser sampleErr (IBytes "boom failed")
           eq_refl eq_refl eq_refl eq_refl).
Defined.

Lemma With_With_fields_witness :
  sd_fields (With (Any := unit) (With sampleRoot [zap_String "a" "1"])
               [Label "l" "2"; zap_String "b" "3"])
  = sd_fields (With sampleRoot
                 ([zap_String "a" "1"] ++ [Label "l" "2"; zap_String "b" "3"])).
Proof.
  apply (proj1 (proj2 (With_With_fields (Any := unit) sampleRoot
                         [zap_String "a" "1"]
                         [Label "l" "2"; zap_String "b" "3"]))).
  reflexivity.
Defined.

Lemma call_site_views_agree_witness :
  sourceLocation_MarshalLogObject (Any := unit)
    (sourceLocationFromEntry File sampleEntry)
  = [CAddString "file" "main.go"; CAddInteger KInt "line" 10;
     CAddString "function" "main.main"]
  /\ reportLocation_MarshalLogObject (Any := unit)
       (reportLocationFromEntry File sampleEntry)
     = [CAddString "filePath" "main.go"; CAddInteger KInt "lineNumber" 10;
        CAddString "functionName" "main.main"].
Proof.
  destruct (call_site_views_agree (Any := unit) File sampleEntry)
    as (p & l & fn & H1 & H2 & _ & H4).
  destruct (H4 eq_refl) as (Hp & Hl & Hfn). subst p l fn.
  split; assumption.
Defined.

Lemma Write_scope_enabled_no_destination_witness :
  dispatched (fst (Write (Any := unit) File (With sampleRoot [Slack []])
                     sampleEntry [zap_String "k" "v"]))
  = [("", Write_entry sampleEntry,
      Write_fields File (With sampleRoot [Slack []]) sampleEntry
        [zap_String "k" "v"])].
Proof.
  assert (H : Forall (fun g : FieldOf (@iface unit) =>
                        Key g <> logKeySlackNotification)
                [zap_String "k" "v"]).
  { constructor; [discriminate | constructor]. }
  exact (proj1 (Write_scope_enabled_no_destination (Any := unit) File sample_yaml
                  (fun b => b) sample_fmt sample_fmt sample_fmt (fun _ => "0")
                  sample_fmt sample_fmt sample_fmt (fun z => z) (fun _ => "")
                  File sample_Causes sample_Format sample_Inline (With sampleRoot [Slack []]) sampleEntry
                  [zap_String "k" "v"] H)).
Defined.

Lemma Write_dispatch_marker_witness :
  dispatched (fst (Write (Any := unit) File (With sampleRoot [Slack []])
                     sampleEntry
                     ([zap_String "k" "v"]
                      ++ zap_Bool logKeySlackNotification false :: [])))
  = [].
Proof.
  apply (proj1 (Write_dispatch_marker (Any := unit) File
                  (With sampleRoot [Slack []]) sampleEntry [zap_String "k" "v"]
                  (zap_Bool logKeySlackNotification false) []
                  eq_refl (Forall_nil _))).
  - reflexivity.
  - discriminate.
Defined.

Lemma no_URL_no_delivery_witness :
  sd_slackURL (With (Any := unit) (Zap nopCore []) [Slack []; zap_String "k" "v"])
  = "".
Proof.
  assert (H : Forall (fun g : FieldOf (@iface unit) =>
                        Key g = logKeySlackNotification -> Type_ g <> StringType)
                [Slack []; zap_String "k" "v"]).
  { constructor; [intros _; discriminate|].
    constructor; [discriminate | constructor]. }
  exact (proj1 (proj2 (no_URL_no_delivery (Any := unit) File sample_yaml
                         (fun b => b) sample_fmt sample_fmt sample_fmt
                         (fun _ => "0") sample_fmt sample_fmt sample_fmt
                         (fun z => z) (fun _ => "") File sample_Causes sample_Format sample_Inline (Zap nopCore [])
                         sampleEntry [Slack []; zap_String "k" "v"]
                         eq_refl H))).
Defined.

Lemma sendSlackNotification_effects_witness :
  delivered
    (sendSlackNotification (Any := unit) sample_yaml (fun b => b) sample_fmt
           sample_fmt sample_fmt (fun _ => "0") sample_fmt sample_fmt sample_fmt
           (fun z => z) (fun _ => "") File sample_Causes sample_Format
           sample_Inline sampleRoot "https://hook" sampleEntry
       [zap_String "k" "v"; sampleErrorField; zap_String "a" "1"])
  = [("https://hook",
      mkWebhookMessage
        [mkAttachment "#D50000"
           [ SectionBlock
               (Some (mrkdwn (Sprintf_kv "boom" "main.go")))
               [ mrkdwn (Sprintf_kv "Service" "unknown");
                 mrkdwn (Sprintf_kv "Version" "unknown");
                 mrkdwn (Sprintf_kv "Time" "0");
                 mrkdwn (Sprintf_kv "error" "boom failed") ];
             DividerBlock;
             SectionBlock None
               [ mrkdwn (Sprintf_kv "a" "1");
                 mrkdwn (Sprintf_kv "errorVerbose" "boom failed at main.go:10");
                 mrkdwn (Sprintf_kv "k" "v") ] ]])].
Proof.
  assert (Hu : "https://hook" <> "") by discriminate.
  rewrite (proj1 (proj2 (proj2 (proj2
             (sendSlackNotification_effects (Any := unit) sample_yaml
                (fun b => b) sample_fmt sample_fmt sample_fmt (fun _ => "0")
                sample_fmt sample_fmt sample_fmt (fun z => z) (fun _ => "") File
                sample_Causes sample_Format sample_Inline
                sampleRoot "https://hook" sampleEntry
                [zap_String "k" "v"; sampleErrorField; zap_String "a" "1"])))
             Hu "#D50000" eq_refl)).
  vm_compute. reflexivity.
Defined.

Lemma error_field_pinned_witness :
  ErrField
    (fold_left
       (fun enc field =>
          Field_AddTo (Any := unit) sample_yaml (fun b => b) sample_fmt
            sample_fmt sample_fmt (fun _ => "0") sample_fmt sample_fmt
            (fun z => z) (fun _ => "") sample_Causes sample_Format
            sample_Inline field enc)
       ([zap_String "k" "v"] ++ sampleErrorField :: [zap_String "z" "1"])
       emptyEncoder)
  = Some (mrkdwn (Sprintf_kv "error" "boom failed"))
  /\ Fields
       (fold_left
          (fun enc field =>
             Field_AddTo (Any := unit) sample_yaml (fun b => b) sample_fmt
               sample_fmt sample_fmt (fun _ => "0") sample_fmt sample_fmt
               (fun z => z) (fun _ => "") sample_Causes sample_Format
               sample_Inline field enc)
          ([zap_String "k" "v"] ++ [sampleErrorField])
          emptyEncoder)
     = Fields
         (fold_left
            (fun enc field =>
               Field_AddTo (Any := unit) sample_yaml (fun b => b) sample_fmt
                 sample_fmt sample_fmt (fun _ => "0") sample_fmt sample_fmt
                 (fun z => z) (fun _ => "") sample_Causes sample_Format
                 sample_Inline field enc)
            [zap_String "k" "v"] emptyEncoder)
       ++ [mrkdwn (Sprintf_kv "errorVerbose" "boom failed at main.go:10")].
Proof.
  assert (H : Forall (fun g : FieldOf (@iface unit) =>
                        Key g <> "error" /\ Type_ g <> InlineMarshalerType)
                [zap_String "z" "1"]).
  { constructor; [split; discriminate | constructor]. }
  split.
  - exact (proj1 (error_field_pinned (Any := unit) sample_yaml (fun b => b)
                    sample_fmt sample_fmt sample_fmt (fun _ => "0") sample_fmt
                    sample_fmt (fun z => z) (fun _ => "") sample_Causes
                    sample_Format sample_Inline
                    [zap_String "k" "v"] sampleErrorField [zap_String "z" "1"]
                    sampleErr eq_refl eq_refl eq_refl H)).
  - apply (proj2 (proj2 (error_field_pinned (Any := unit) sample_yaml
                            (fun b => b) sample_fmt sample_fmt sample_fmt
                            (fun _ => "0") sample_fmt sample_fmt (fun z => z)
                            (fun _ => "") sample_Causes sample_Format
                            sample_Inline
                            [zap_String "k" "v"] sampleErrorField
                            [zap_String "z" "1"]
                            sampleErr eq_refl eq_refl eq_refl H))
             "boom failed at main.go:10" eq_refl eq_refl).
    discriminate.
Defined.

Lemma HTTPRequestEntry_explicit_members_witness :
  HTTPRequestEntry_MarshalLogObject (Any := unit) (fun _ => None) sample_fmt
    sample_fmt
    (set_Request
       (mkHTTPRequestEntry None "GET" "http://example.com" 1024 200 0 "curl"
          "8.8.8.8" "http://example.com" 0)
       (Some sampleRequest))
  = HTTPRequestEntry_MarshalLogObject (fun _ => None) sample_fmt sample_fmt
      (set_Request
         (mkHTTPRequestEntry None "GET" "http://example.com" 1024 200 0 "curl"
            "8.8.8.8" "http://example.com" 0)
         None).
Proof.
  apply (proj1 (HTTPRequestEntry_explicit_members (Any := unit) (fun _ => None)
                  sample_fmt sample_fmt
                  (mkHTTPRequestEntry None "GET" "http://example.com" 1024 200 0
                     "curl" "8.8.8.8" "http://example.com" 0)));
    discriminate.
Defined.

Lemma HTTP_remoteIP_forwarded_witness :
  HTTP_remoteIP (fun _ => None)
    (mkHTTPRequestEntry (Some sampleRequest) "" "" 0 0 0 "" "" "" 0)
  = "10.0.0.1".
Proof.
  apply (proj1 (HTTP_remoteIP_forwarded (fun _ => None)
                  (mkHTTPRequestEntry (Some sampleRequest) "" "" 0 0 0 "" "" "" 0)
                  sampleRequest eq_refl eq_refl)
           "10.0.0.1" "10.0.0.2" eq_refl).
  intros n. do 8 (destruct n as [|n]; [discriminate|]). discriminate.
Defined.

Lemma Context_ignores_header_witness :
  IsSampled (Context_info (mkContext None "/pkg.Svc/Get" (Some sampleMD))) = false.
Proof.
  apply (proj2 (proj2 (Context_ignores_header (Any := unit)
                         (mkContext None "/pkg.Svc/Get" (Some sampleMD))))).
  reflexivity.
Defined.

Lemma parseFields_Context_witness :
  fs (parseFields (Any := unit) sampleRoot [Context (mkContext None "" None)]
        ["boom"])
  = [].
Proof.
  apply (proj2 (parseFields_Context (Any := unit) sampleRoot
                  (mkContext None "" None) ["boom"]));
    reflexivity.
Defined.

Lemma Label_round_trip_witness :
  fs (parseFields (Any := unit) sampleRoot
        (map (fun kv => Label (fst kv) (snd kv))
           [("a", "1"); ("zapx.label#b", "2")]) [])
  = [zap_Object labelsKey
       (ILabels (map (fun kv => zap_String (fst kv) (snd kv))
                   [("a", "1"); ("zapx.label#b", "2")]))].
Proof.
  apply (proj1 (Label_round_trip (Any := unit) sampleRoot
                  [("a", "1"); ("zapx.label#b", "2")] [])).
  discriminate.
Defined.
